(** * Todo API backend: token verification, ownership guard and task handlers

    A shallow embedding of the Python sources
    (utils/jwt.py, middleware/auth.py, schemas.py, models.py, routes/tasks.py)
    followed by the properties established about them. *)

From Stdlib Require Import ZArith NArith String Ascii Bool.
From stdpp Require Import base option list sorting gmap.

Local Open Scope Z_scope.

(** ** Python values *)

(** A Python [str] is a sequence of Unicode code points; [len] is [length]. *)
Abbreviation str := (list N).

(** A string literal of the source, as a [str]. *)
Definition lit (s : string) : str := N_of_ascii <$> list_ascii_of_string s.

(** [str.isspace] on one character: the code points CPython classifies as
    whitespace. *)
Definition isspace (c : N) : bool :=
  ((0x09 <=? c) && (c <=? 0x0D) || (0x1C <=? c) && (c <=? 0x20)
   || (c =? 0x85) || (c =? 0xA0) || (c =? 0x1680)
   || (0x2000 <=? c) && (c <=? 0x200A)
   || (c =? 0x2028) || (c =? 0x2029) || (c =? 0x202F)
   || (c =? 0x205F) || (c =? 0x3000))%N.

Fixpoint lstrip (s : str) : str :=
  match s with
  | [] => []
  | c :: s' => if isspace c then lstrip s' else s
  end.

Definition rstrip (s : str) : str := reverse (lstrip (reverse s)).

(** [s.strip()] *)
Definition strip (s : str) : str := rstrip (lstrip s).

(** [s.split()]: the maximal runs of non-whitespace characters.
    [cur] holds the run being read, last character first. *)
Fixpoint split_from (cur : str) (s : str) : list str :=
  match s with
  | [] => match cur with [] => [] | _ => [reverse cur] end
  | c :: s' =>
      if isspace c
      then match cur with
           | [] => split_from [] s'
           | _ => reverse cur :: split_from [] s'
           end
      else split_from (c :: cur) s'
  end.

Definition split (s : str) : list str := split_from [] s.

(** [s.lower()], on the letters A-Z. No character outside A-Z lowers to one
    of the letters of "bearer", the only string [lower] is compared with. *)
Definition lower_char (c : N) : N :=
  (if (0x41 <=? c) && (c <=? 0x5A) then c + 32 else c)%N.

Definition lower (s : str) : str := lower_char <$> s.

(** JSON values as Python objects (floats are left out). *)
#[warnings="-register-all"]
Inductive pyval :=
| PNone
| PBool (b : bool)
| PInt (z : Z)
| PStr (s : str)
| PList (l : list pyval)
| PDict (d : list (str * pyval)).

(** Truth value of an object: [if v], [not v]. *)
Definition truthy (v : pyval) : bool :=
  match v with
  | PNone => false
  | PBool b => b
  | PInt z => negb (z =? 0)
  | PStr s => negb (bool_decide (s = []))
  | PList l => match l with [] => false | _ => true end
  | PDict d => match d with [] => false | _ => true end
  end.

(** [v == s] for an object [v] and a [str] [s]. *)
Definition py_eq_str (v : pyval) (s : str) : bool :=
  match v with
  | PStr s' => bool_decide (s' = s)
  | _ => false
  end.

(** A decoded token payload: a [dict] with string keys. *)
Abbreviation dict := (gmap (list N) pyval).

(** [d.get(k)] *)
Definition dict_get (d : dict) (k : str) : pyval := default PNone (d !! k).

(** ** models.py *)

(** A naive [datetime]: microseconds since 1970-01-01T00:00:00. *)
Abbreviation datetime := Z (only parsing).

Module Task.
Record t := mk {
  id : option Z;
  user_id : str;
  title : str;
  description : option str;
  completed : bool;
  created_at : datetime;
  updated_at : datetime
}.

Definition set_id (k : Z) (x : t) : t :=
  mk (Some k) (user_id x) (title x) (description x) (completed x)
     (created_at x) (updated_at x).
Definition set_title (v : str) (x : t) : t :=
  mk (id x) (user_id x) v (description x) (completed x)
     (created_at x) (updated_at x).
Definition set_description (v : option str) (x : t) : t :=
  mk (id x) (user_id x) (title x) v (completed x)
     (created_at x) (updated_at x).
Definition set_completed (v : bool) (x : t) : t :=
  mk (id x) (user_id x) (title x) (description x) v
     (created_at x) (updated_at x).
Definition set_updated_at (v : datetime) (x : t) : t :=
  mk (id x) (user_id x) (title x) (description x) (completed x)
     (created_at x) v.

(** [Task(user_id=..., title=..., description=..., completed=...)]:
    [id] defaults to [None]; each timestamp comes from its own call of the
    default factory [datetime.utcnow]. *)
Definition new (user_id : str) (title : str) (description : option str)
    (completed : bool) (utcnow1 utcnow2 : datetime) : t :=
  mk None user_id title description completed utcnow1 utcnow2.
End Task.

(** ** schemas.py *)

Module TaskCreate.
Record t := mk { title : str; description : option str }.

(** [title: Field(..., min_length=1, max_length=200)],
    [description: Field(None, max_length=1000)] *)
Definition valid (x : t) : bool :=
  (1 <=? length (title x))%nat && (length (title x) <=? 200)%nat
  && match description x with
     | None => true
     | Some d => (length d <=? 1000)%nat
     end.
End TaskCreate.

Module TaskUpdate.
Record t := mk { title : option str; description : option str }.

(** [title: Field(None, min_length=1, max_length=200)],
    [description: Field(None, max_length=1000)] *)
Definition valid (x : t) : bool :=
  match title x with
  | None => true
  | Some s => (1 <=? length s)%nat && (length s <=? 200)%nat
  end
  && match description x with
     | None => true
     | Some d => (length d <=? 1000)%nat
     end.
End TaskUpdate.

Module TaskResponse.
Record t := mk {
  id : Z;
  user_id : str;
  title : str;
  description : option str;
  completed : bool;
  created_at : datetime;
  updated_at : datetime
}.

(** The attributes of a task with id [k], copied field by field. *)
Definition of_task (k : Z) (x : Task.t) : t :=
  mk k (Task.user_id x) (Task.title x) (Task.description x)
     (Task.completed x) (Task.created_at x) (Task.updated_at x).

(** [TaskResponse.model_validate(task)]: [id] is required to be an [int],
    so a task without an id is refused. *)
Definition model_validate (x : Task.t) : option t :=
  match Task.id x with
  | None => None
  | Some k => Some (of_task k x)
  end.
End TaskResponse.

(** What the handlers put in [data]: the dump of one task, of a list of
    tasks, or the one-entry dict [{"message": m}]. *)
Inductive payload_data :=
| DataTask (x : TaskResponse.t)
| DataTasks (l : list TaskResponse.t)
| DataMessage (m : string).

Record ApiResponse := mkApiResponse {
  success : bool;
  data : option payload_data;
  error : option dict
}.

(** ** Exceptions and the database session *)

(** What a handler or a dependency can raise: [HTTPException], or pydantic's
    [ValidationError] out of [model_validate]; and what the framework raises
    for a request body that fails its schema, [RequestValidationError],
    answered with status 422. *)
Inductive exn :=
| HTTPException (status_code : Z) (detail : string)
| ValidationError
| RequestValidationError.

Inductive outcome (A : Type) :=
| Return (a : A)
| Raise (e : exn).
Arguments Return {A} a.
Arguments Raise {A} e.

(** One entry per statement the session sends to the store. *)
Inductive access :=
| Select
| Get (k : Z)
| Flush (k : Z)
| Refresh (k : Z)
| Delete (k : Z).

(** The [tasks] table, rows by primary key, and the statements issued so
    far. *)
Record Session := mkSession {
  db : gmap Z Task.t;
  log : list access
}.

(** A computation that uses the session and returns or raises. *)
Definition M (A : Type) : Type := Session → outcome A * Session.

Definition ret {A} (a : A) : M A := λ s, (Return a, s).
Definition raise {A} (e : exn) : M A := λ s, (Raise e, s).
Definition bind {A B} (m : M A) (f : A → M B) : M B :=
  λ s, match m s with
       | (Return a, s') => f a s'
       | (Raise e, s') => (Raise e, s')
       end.

Notation "'let!' x ':=' m 'in' k" := (bind m (λ x, k))
  (at level 10, x name, m at level 100, k at level 200, only parsing).
Notation "'run!' m 'in' k" := (bind m (λ _, k))
  (at level 10, m at level 100, k at level 200, only parsing).

(** The clauses the handlers put on [select(Task)]. *)
Inductive clause :=
| user_id_eq (u : str)
| completed_eq (b : bool).

Definition holds (c : clause) (x : Task.t) : bool :=
  match c with
  | user_id_eq u => bool_decide (Task.user_id x = u)
  | completed_eq b => Bool.eqb (Task.completed x) b
  end.

Record Query := mkQuery {
  wheres : list clause;
  created_at_desc : bool
}.

(** [select(Task)], [query.where(c)], [query.order_by(Task.created_at.desc())] *)
Definition select_Task : Query := mkQuery [] false.
Definition where_ (q : Query) (c : clause) : Query :=
  mkQuery (wheres q ++ [c]) (created_at_desc q).
Definition order_by_created_at_desc (q : Query) : Query :=
  mkQuery (wheres q) true.

(** Rows as the mapper loads them: the primary key is the row's key. *)
Definition rows (m : gmap Z Task.t) : list Task.t :=
  (λ kx, Task.set_id kx.1 kx.2) <$> map_to_list m.

(** [a] is listed no later than [b] under [ORDER BY created_at DESC]. *)
Definition newer_first (a b : Task.t) : Prop :=
  Task.created_at b ≤ Task.created_at a.

Global Instance newer_first_dec a b : Decision (newer_first a b) :=
  Z_le_dec _ _.

(** Rows selected by a query. Rows with equal [created_at] keep the order
    the store produced them in. *)
Definition run_query (q : Query) (m : gmap Z Task.t) : list Task.t :=
  let selected := filter (λ x, forallb (λ c, holds c x) (wheres q) = true) (rows m) in
  if created_at_desc q then merge_sort newer_first selected else selected.

(** [session.exec(query).all()] *)
Definition session_exec_all (q : Query) : M (list Task.t) :=
  λ s, (Return (run_query q (db s)), mkSession (db s) (log s ++ [Select])).

(** [session.get(Task, task_id)] *)
Definition session_get (task_id : Z) : M (option Task.t) :=
  λ s, (Return (Task.set_id task_id <$> db s !! task_id),
        mkSession (db s) (log s ++ [Get task_id])).

(** The id the store gives a new row: one above the largest in use. *)
Definition next_id (m : gmap Z Task.t) : Z :=
  Z.succ (map_fold (λ k _ acc, Z.max k acc) 0 m).

(** [session.add(task); session.commit(); session.refresh(task)]:
    the row is written under its id (a new one when it has none) and the
    object is reloaded from it. *)
Definition session_add_commit_refresh (task : Task.t) : M Task.t :=
  λ s, let k := match Task.id task with
                | Some k => k
                | None => next_id (db s)
                end in
       let row := Task.set_id k task in
       (Return row,
        mkSession (<[k := row]> (db s)) (log s ++ [Flush k; Refresh k])).

(** [session.delete(task); session.commit()] *)
Definition session_delete_commit (task : Task.t) : M unit :=
  λ s, match Task.id task with
       | Some k => (Return tt, mkSession (delete k (db s)) (log s ++ [Delete k]))
       | None => (Return tt, s)
       end.

(** [TaskResponse.model_validate(task).model_dump()] *)
Definition dump (task : Task.t) : M TaskResponse.t :=
  match TaskResponse.model_validate task with
  | Some r => ret r
  | None => raise ValidationError
  end.

Fixpoint dump_all (tasks : list Task.t) : M (list TaskResponse.t) :=
  match tasks with
  | [] => ret []
  | x :: tasks' =>
      let! r := dump x in
      let! rs := dump_all tasks' in
      ret (r :: rs)
  end.

(** ** routes/tasks.py *)

(** The request as a handler sees it: the [Authorization] header and the
    attributes [verify_jwt_middleware] attached to [request.state]. *)
Record Request := mkRequest {
  authorization : option str;
  state_user_id : pyval;
  state_user_email : pyval
}.

Definition HTTP_401_UNAUTHORIZED : Z := 401.
Definition HTTP_403_FORBIDDEN : Z := 403.
Definition HTTP_404_NOT_FOUND : Z := 404.

Definition list_tasks (user_id : str) (request : Request)
    (filter_status : str) : M ApiResponse :=
  if negb (py_eq_str (state_user_id request) user_id)
  then raise (HTTPException HTTP_403_FORBIDDEN "Cannot access other users' tasks")
  else
    let query := where_ select_Task (user_id_eq user_id) in
    let query :=
      if bool_decide (filter_status = lit "pending")
      then where_ query (completed_eq false)
      else if bool_decide (filter_status = lit "completed")
      then where_ query (completed_eq true)
      else query in
    let query := order_by_created_at_desc query in
    let! tasks := session_exec_all query in
    let! dumped := dump_all tasks in
    ret (mkApiResponse true (Some (DataTasks dumped)) None).

(** [utcnow1], [utcnow2]: the clock readings taken for [created_at] and
    [updated_at] when the task object is built. *)
Definition create_task (user_id : str) (task_data : TaskCreate.t)
    (request : Request) (utcnow1 utcnow2 : datetime) : M ApiResponse :=
  if negb (py_eq_str (state_user_id request) user_id)
  then raise (HTTPException HTTP_403_FORBIDDEN "Cannot create tasks for other users")
  else
    let task :=
      Task.new user_id
        (strip (TaskCreate.title task_data))
        (match TaskCreate.description task_data with
         | Some d => if truthy (PStr d) then Some (strip d) else None
         | None => None
         end)
        false utcnow1 utcnow2 in
    let! task := session_add_commit_refresh task in
    let! dumped := dump task in
    ret (mkApiResponse true (Some (DataTask dumped)) None).

Definition get_task (user_id : str) (task_id : Z) (request : Request)
    : M ApiResponse :=
  if negb (py_eq_str (state_user_id request) user_id)
  then raise (HTTPException HTTP_403_FORBIDDEN "Cannot access other users' tasks")
  else
    let! task := session_get task_id in
    match task with
    | None => raise (HTTPException HTTP_404_NOT_FOUND "Task not found")
    | Some x =>
        if negb (bool_decide (Task.user_id x = user_id))
        then raise (HTTPException HTTP_404_NOT_FOUND "Task not found")
        else
          let! dumped := dump x in
          ret (mkApiResponse true (Some (DataTask dumped)) None)
    end.

(** [utcnow]: the clock reading taken for [updated_at]. *)
Definition update_task (user_id : str) (task_id : Z)
    (task_data : TaskUpdate.t) (request : Request) (utcnow : datetime)
    : M ApiResponse :=
  if negb (py_eq_str (state_user_id request) user_id)
  then raise (HTTPException HTTP_403_FORBIDDEN "Cannot update other users' tasks")
  else
    let! task := session_get task_id in
    match task with
    | None => raise (HTTPException HTTP_404_NOT_FOUND "Task not found")
    | Some x =>
        if negb (bool_decide (Task.user_id x = user_id))
        then raise (HTTPException HTTP_404_NOT_FOUND "Task not found")
        else
          let x := match TaskUpdate.title task_data with
                   | Some v => Task.set_title (strip v) x
                   | None => x
                   end in
          let x := match TaskUpdate.description task_data with
                   | Some v => Task.set_description (Some (strip v)) x
                   | None => x
                   end in
          let x := Task.set_updated_at utcnow x in
          let! x := session_add_commit_refresh x in
          let! dumped := dump x in
          ret (mkApiResponse true (Some (DataTask dumped)) None)
    end.

Definition delete_task (user_id : str) (task_id : Z) (request : Request)
    : M ApiResponse :=
  if negb (py_eq_str (state_user_id request) user_id)
  then raise (HTTPException HTTP_403_FORBIDDEN "Cannot delete other users' tasks")
  else
    let! task := session_get task_id in
    match task with
    | None => raise (HTTPException HTTP_404_NOT_FOUND "Task not found")
    | Some x =>
        if negb (bool_decide (Task.user_id x = user_id))
        then raise (HTTPException HTTP_404_NOT_FOUND "Task not found")
        else
          run! session_delete_commit x in
          ret (mkApiResponse true
                 (Some (DataMessage "Task deleted successfully")) None)
    end.

(** [utcnow]: the clock reading taken for [updated_at]. *)
Definition toggle_task_completion (user_id : str) (task_id : Z)
    (request : Request) (utcnow : datetime) : M ApiResponse :=
  if negb (py_eq_str (state_user_id request) user_id)
  then raise (HTTPException HTTP_403_FORBIDDEN "Cannot update other users' tasks")
  else
    let! task := session_get task_id in
    match task with
    | None => raise (HTTPException HTTP_404_NOT_FOUND "Task not found")
    | Some x =>
        if negb (bool_decide (Task.user_id x = user_id))
        then raise (HTTPException HTTP_404_NOT_FOUND "Task not found")
        else
          let x := Task.set_completed (negb (Task.completed x)) x in
          let x := Task.set_updated_at utcnow x in
          let! x := session_add_commit_refresh x in
          let! dumped := dump x in
          ret (mkApiResponse true (Some (DataTask dumped)) None)
    end.

(** ** utils/jwt.py and middleware/auth.py *)

(** What [jwt.decode] does: it returns the payload, raises
    [jwt.InvalidTokenError] (or a subclass), or raises something else. *)
Inductive decode_result :=
| Decoded (payload : dict)
| InvalidTokenError
| OtherException.

(** Bounds of [datetime], in seconds: 0001-01-01T00:00:00 and
    9999-12-31T23:59:59. *)
Definition datetime_min_s : Z := -62135596800.
Definition datetime_max_s : Z := 253402300799.

(** A call of one of the six routes, with the arguments the framework hands
    to the handler (path parameters, query parameter, parsed body) and the
    clock readings the handler takes. *)
Inductive operation :=
| ListTasks (user_id : str) (filter_status : str)
| CreateTask (user_id : str) (task_data : TaskCreate.t) (utcnow1 utcnow2 : datetime)
| GetTask (user_id : str) (task_id : Z)
| UpdateTask (user_id : str) (task_id : Z) (task_data : TaskUpdate.t) (utcnow : datetime)
| DeleteTask (user_id : str) (task_id : Z)
| ToggleTaskCompletion (user_id : str) (task_id : Z) (utcnow : datetime).

(** The route table of [router]: the handler behind each operation. *)
Definition handler (op : operation) (request : Request) : M ApiResponse :=
  match op with
  | ListTasks user_id filter_status => list_tasks user_id request filter_status
  | CreateTask user_id task_data utcnow1 utcnow2 =>
      create_task user_id task_data request utcnow1 utcnow2
  | GetTask user_id task_id => get_task user_id task_id request
  | UpdateTask user_id task_id task_data utcnow =>
      update_task user_id task_id task_data request utcnow
  | DeleteTask user_id task_id => delete_task user_id task_id request
  | ToggleTaskCompletion user_id task_id utcnow =>
      toggle_task_completion user_id task_id request utcnow
  end.

Section auth.
(** [jwt.decode(token, key, algorithms)] of the PyJWT library, called at
    the given instant. The library is not part of the repository. *)
Variable jwt_decode : str → str → list str → datetime → decode_result.

(** [SECRET_KEY = os.getenv("BETTER_AUTH_SECRET")] *)
Variable SECRET_KEY : str.

(** Offset of the server's local time zone from UTC, in seconds, at a
    POSIX timestamp. *)
Variable utcoffset : Z → Z.

(** [datetime.fromtimestamp(timestamp)]: the naive local time of a POSIX
    timestamp; [None] when the call raises (not a number, or out of the
    range of [datetime]). *)
Definition datetime_fromtimestamp (timestamp : pyval) : option datetime :=
  let of_int (z : Z) :=
    let l := z + utcoffset z in
    if (datetime_min_s <=? l) && (l <=? datetime_max_s)
    then Some (l * 1000000)
    else None in
  match timestamp with
  | PInt z => of_int z
  | PBool b => of_int (if b then 1 else 0)
  | _ => None
  end.

(** [utcnow]: the value of [datetime.utcnow()] at the call. *)
Definition verify_jwt (token : str) (utcnow : datetime) : option dict :=
  match jwt_decode token SECRET_KEY [lit "HS256"] utcnow with
  | Decoded payload =>
      let exp := dict_get payload (lit "exp") in
      if truthy exp
      then match datetime_fromtimestamp exp with
           | Some d => if d <? utcnow then None else Some payload
           | None => None
           end
      else Some payload
  | InvalidTokenError => None
  | OtherException => None
  end.

Definition get_user_id_from_token (token : str) (utcnow : datetime) : pyval :=
  match verify_jwt token utcnow with
  | Some payload =>
      if bool_decide (payload = ∅) then PNone
      else dict_get payload (lit "sub")
  | None => PNone
  end.

(** Returns the request with [state.user_id] and [state.user_email]
    attached, or raises. *)
Definition verify_jwt_middleware (request : Request) (utcnow : datetime)
    : outcome Request :=
  match authorization request with
  | None =>
      Raise (HTTPException HTTP_401_UNAUTHORIZED "Missing Authorization header")
  | Some auth_header =>
      if negb (truthy (PStr auth_header))
      then Raise (HTTPException HTTP_401_UNAUTHORIZED "Missing Authorization header")
      else
        match split auth_header with
        | [scheme; token] =>
            if negb (bool_decide (lower scheme = lit "bearer"))
            then Raise (HTTPException HTTP_401_UNAUTHORIZED
                   "Invalid Authorization header format. Expected: Bearer <token>")
            else
              match verify_jwt token utcnow with
              | Some payload =>
                  if bool_decide (payload = ∅)
                  then Raise (HTTPException HTTP_401_UNAUTHORIZED
                         "Invalid or expired token")
                  else Return (mkRequest (authorization request)
                                 (dict_get payload (lit "sub"))
                                 (dict_get payload (lit "email")))
              | None =>
                  Raise (HTTPException HTTP_401_UNAUTHORIZED
                    "Invalid or expired token")
              end
        | _ =>
            Raise (HTTPException HTTP_401_UNAUTHORIZED
              "Invalid Authorization header format. Expected: Bearer <token>")
        end
  end.

(** A route with [dependencies=[Depends(verify_jwt_middleware)]]: the
    dependency runs first, at [utcnow]; the handler runs if it returns.
    The check of the body against its schema, which the server runs in
    between, is part of [route] below. *)
Definition endpoint (op : operation) (request : Request) (utcnow : datetime)
    : M ApiResponse :=
  λ s, match verify_jwt_middleware request utcnow with
       | Return request' => handler op request' s
       | Raise e => (Raise e, s)
       end.
End auth.

(** ** Vocabulary of the properties *)

(** The path identity an operation names. *)
Definition path_user_id (op : operation) : str :=
  match op with
  | ListTasks user_id _ => user_id
  | CreateTask user_id _ _ _ => user_id
  | GetTask user_id _ => user_id
  | UpdateTask user_id _ _ _ => user_id
  | DeleteTask user_id _ => user_id
  | ToggleTaskCompletion user_id _ _ => user_id
  end.

(** A completion flag passes a list filter: "pending" wants [false],
    "completed" wants [true], anything else puts no restriction. *)
Definition matches_filter (filter_status : str) (completed : bool) : Prop :=
  (filter_status = lit "pending" → completed = false)
  ∧ (filter_status = lit "completed" → completed = true).

(** Responses listed newest first. *)
Definition created_at_descending : relation TaskResponse.t :=
  λ a b, TaskResponse.created_at b ≤ TaskResponse.created_at a.

(** The payload carries an integer expiry that lies strictly after the
    instant [utcnow]. *)
Definition expiry_strictly_after (payload : dict) (utcnow : datetime) : Prop :=
  ∃ e, payload !! lit "exp" = Some (PInt e) ∧ utcnow < e * 1000000.

(** The response is an envelope: the operation handed back an
    [ApiResponse]. *)
Definition enveloped (o : outcome ApiResponse) : Prop := ∃ r, o = Return r.

(** ** Sample data *)

Definition sample_payload_u1 : dict :=
  {[ lit "sub" := PStr (lit "u1"); lit "email" := PStr (lit "u1@example.org") ]}.

Definition sample_payload_u2 : dict :=
  {[ lit "sub" := PStr (lit "u2"); lit "exp" := PInt 2000000000 ]}.

(** A stand-in for the library call: it knows two tokens under the key
    "secret" and refuses everything else. *)
Definition sample_decode (token key : str) (algorithms : list str)
    (utcnow : datetime) : decode_result :=
  if bool_decide (key = lit "secret")
  then if bool_decide (token = lit "tok-u1") then Decoded sample_payload_u1
       else if bool_decide (token = lit "tok-u2") then Decoded sample_payload_u2
       else InvalidTokenError
  else InvalidTokenError.

Definition utc : Z → Z := λ _, 0.

Definition sample_task_a : Task.t :=
  Task.mk (Some 1) (lit "u1") (lit "Buy milk") None false 10 10.
Definition sample_task_b : Task.t :=
  Task.mk (Some 2) (lit "u1") (lit "Call home") (Some (lit "soon")) true 30 40.
Definition sample_task_c : Task.t :=
  Task.mk (Some 5) (lit "u2") (lit "Pay rent") None true 20 20.

Definition sample_db : gmap Z Task.t :=
  <[1 := sample_task_a]> (<[2 := sample_task_b]> (<[5 := sample_task_c]> ∅)).

Definition sample_session : Session := mkSession sample_db [].

(** A request as a handler sees it after authentication as "u1"; a request
    with no header; a request that carries the token of "u1". *)
Definition request_u1 : Request := mkRequest None (PStr (lit "u1")) PNone.
Definition request_anonymous : Request := mkRequest None PNone PNone.
Definition request_bearer_u1 : Request :=
  mkRequest (Some (lit "Bearer tok-u1")) PNone PNone.

(** ** main.py *)

(** [s.split(sep)] for a one-character separator: the pieces between the
    separators, empty ones included. [cur] holds the piece being read, last
    character first. *)
Fixpoint split_on_from (sep : N) (cur : str) (s : str) : list str :=
  match s with
  | [] => [reverse cur]
  | c :: s' =>
      if (c =? sep)%N
      then reverse cur :: split_on_from sep [] s'
      else split_on_from sep (c :: cur) s'
  end.

Definition split_on (sep : N) (s : str) : list str := split_on_from sep [] s.

Definition comma : N := 0x2C%N.

(** [cors_origins]: the comma-separated value of the environment variable
    [CORS_ORIGINS] (or the default when it is not set), each piece trimmed,
    pieces that trim to nothing dropped. *)
Definition cors_origins (CORS_ORIGINS : option str) : list str :=
  let value := default (lit "http://localhost:3000") CORS_ORIGINS in
  strip <$> filter (λ origin, truthy (PStr (strip origin)) = true)
              (split_on comma value).

(** ** Vocabulary of the further properties *)

(** A string without whitespace at either end. *)
Definition trimmed (s : str) : Prop :=
  (∀ c, head s = Some c → isspace c = false)
  ∧ (∀ c, last s = Some c → isspace c = false).

(** A row whose text fields are within the lengths the schemas allow. *)
Definition within_bounds (x : Task.t) : Prop :=
  (length (Task.title x) ≤ 200)%nat
  ∧ ∀ d, Task.description x = Some d → (length d ≤ 1000)%nat.

(** A row whose text fields carry no whitespace at either end. *)
Definition tidy (x : Task.t) : Prop :=
  trimmed (Task.title x) ∧ ∀ d, Task.description x = Some d → trimmed d.

(** The body of the operation passes its schema. *)
Definition valid_body (op : operation) : bool :=
  match op with
  | CreateTask _ task_data _ _ => TaskCreate.valid task_data
  | UpdateTask _ _ task_data _ => TaskUpdate.valid task_data
  | _ => true
  end.

(** The tasks a response shows. *)
Definition shown_tasks (r : ApiResponse) : list TaskResponse.t :=
  match data r with
  | Some (DataTask x) => [x]
  | Some (DataTasks l) => l
  | _ => []
  end.

(** The description [create_task] stores for a supplied one. *)
Definition created_description (d : option str) : option str :=
  match d with
  | Some v => if bool_decide (v = []) then None else Some (strip v)
  | None => None
  end.

(** A body for [create_task], with whitespace to trim. *)
Definition sample_task_data : TaskCreate.t :=
  TaskCreate.mk (lit "  Water plants ") (Some (lit " daily  ")).

(** ** A route with its body validation *)

(** A route as the server runs it: the dependency [verify_jwt_middleware]
    first, at [utcnow]; then the body ([task_data: TaskCreate],
    [task_data: TaskUpdate]) is checked against its schema and refused with
    [RequestValidationError] when it fails; then the handler. *)
Definition route
    (jwt_decode : str → str → list str → datetime → decode_result)
    (SECRET_KEY : str) (utcoffset : Z → Z)
    (op : operation) (request : Request) (utcnow : datetime) : M ApiResponse :=
  λ s, match verify_jwt_middleware jwt_decode SECRET_KEY utcoffset request
               utcnow with
       | Return request' =>
           if valid_body op then handler op request' s
           else (Raise RequestValidationError, s)
       | Raise e => (Raise e, s)
       end.

(** ** The PyJWT library *)

(** [jwt.decode(token, key, algorithms)] belongs to the PyJWT library, not to
    the repository. It is modelled after the library's documented behaviour,
    in two stages. The first checks the structure of the token and its
    signature under the key and hands out the payload. The second validates
    the registered claims: an "exp" at or before the current time raises
    [ExpiredSignatureError], an "exp" that is no number is refused. *)
Section pyjwt.
(** The first stage: the payload of a well-formed token whose signature
    verifies under the key with one of the algorithms, [None] otherwise. *)
Variable jws_load : str → str → list str → option dict.

(** [int(s)] for a string: [None] when it raises [ValueError]. *)
Variable int_of_str : str → option Z.

(** The library's checks of the claims other than "exp" (nbf, iat, aud and
    the like), at an instant. *)
Variable other_claims_ok : dict → datetime → bool.

(** The check of "exp": [exp = int(payload["exp"])], then
    [if exp <= now: raise ExpiredSignatureError], with [now] in seconds.
    [ExpiredSignatureError] and [DecodeError] are kinds of
    [InvalidTokenError]; [int] of [None], a list or a dict raises
    [TypeError]. *)
Definition validate_exp (payload : dict) (utcnow : datetime) : decode_result :=
  let check (e : Z) :=
    if e * 1000000 <=? utcnow then InvalidTokenError else Decoded payload in
  match payload !! lit "exp" with
  | None => Decoded payload
  | Some (PInt e) => check e
  | Some (PBool b) => check (if b then 1 else 0)
  | Some (PStr v) =>
      match int_of_str v with
      | Some e => check e
      | None => InvalidTokenError
      end
  | Some _ => OtherException
  end.

Definition pyjwt_decode (token key : str) (algorithms : list str)
    (utcnow : datetime) : decode_result :=
  match jws_load token key algorithms with
  | None => InvalidTokenError
  | Some payload =>
      match validate_exp payload utcnow with
      | Decoded _ =>
          if other_claims_ok payload utcnow then Decoded payload
          else InvalidTokenError
      | refused => refused
      end
  end.
End pyjwt.

(** ** Sample tokens *)

Definition sample_payload_zero : dict :=
  {[ lit "sub" := PStr (lit "u1"); lit "exp" := PInt 0 ]}.

(** Three tokens signed with the key "secret": one without "exp", one that
    expires in 2033, one with an "exp" of 0. *)
Definition sample_jws_load (token key : str) (algorithms : list str)
    : option dict :=
  if bool_decide (key = lit "secret")
  then if bool_decide (token = lit "tok-u1") then Some sample_payload_u1
       else if bool_decide (token = lit "tok-u2") then Some sample_payload_u2
       else if bool_decide (token = lit "tok-zero") then Some sample_payload_zero
       else None
  else None.

Definition sample_pyjwt_decode
    : str → str → list str → datetime → decode_result :=
  pyjwt_decode sample_jws_load (λ _, None) (λ _ _, true).

(** An instant of November 2023. *)
Definition sample_instant : datetime := 1700000000000000.

(** * Properties *)

(** Unfolds one handler step by step. *)
Ltac step :=
  cbn [handler];
  unfold list_tasks, create_task, get_task, update_task, delete_task,
    toggle_task_completion, bind, ret, raise, session_get,
    session_add_commit_refresh, session_delete_commit, session_exec_all,
    dump, TaskResponse.model_validate; simpl.

(** ** Basic facts *)

Lemma py_eq_str_true (v : pyval) (s : str) :
  py_eq_str v s = true ↔ v = PStr s.
Proof.
  destruct v; simpl; try (split; [discriminate | congruence]).
  rewrite bool_decide_eq_true. split; congruence.
Qed.

Lemma py_eq_str_false (v : pyval) (s : str) :
  py_eq_str v s = false ↔ v ≠ PStr s.
Proof.
  rewrite <- py_eq_str_true. destruct (py_eq_str v s); split; congruence.
Qed.

(** The guard of every handler comes first: with a wrong path identity the
    handler raises 403 and leaves the session as it found it. *)
Lemma handler_forbidden (op : operation) (request : Request) (s : Session) :
  state_user_id request ≠ PStr (path_user_id op) →
  ∃ detail,
    handler op request s = (Raise (HTTPException HTTP_403_FORBIDDEN detail), s).
Proof.
  intros Hne%py_eq_str_false.
  destruct op; simpl in Hne; step; rewrite Hne; simpl; eauto.
Qed.

(** ** The ownership guard *)

(** C1. A task stored under owner [O] is asked for by a caller whose token
    identity and path identity are both [O'], with [O' ≠ O]: each of get,
    update, delete and toggle raises 404 "Task not found"; the table is
    unchanged, the only statement sent being the lookup by id. *)
Theorem not_owner_gets_not_found
    (user_id : str) (task_id : Z) (request : Request) (s : Session)
    (x : Task.t) (task_data : TaskUpdate.t) (utcnow : datetime) :
  state_user_id request = PStr user_id →
  db s !! task_id = Some x →
  Task.user_id x ≠ user_id →
  let not_found := Raise (HTTPException HTTP_404_NOT_FOUND "Task not found") in
  let s' := mkSession (db s) (log s ++ [Get task_id]) in
  get_task user_id task_id request s = (not_found, s')
  ∧ update_task user_id task_id task_data request utcnow s = (not_found, s')
  ∧ delete_task user_id task_id request s = (not_found, s')
  ∧ toggle_task_completion user_id task_id request utcnow s = (not_found, s').
Proof.
  intros Hid%py_eq_str_true Hx Hown. simpl.
  assert (Hdec : bool_decide (Task.user_id x = user_id) = false)
    by (apply bool_decide_eq_false; exact Hown).
  repeat split; step; rewrite Hid; simpl; rewrite Hx; simpl;
    rewrite Hdec; reflexivity.
Qed.

Lemma not_owner_gets_not_found_witness :
  let not_found := Raise (HTTPException HTTP_404_NOT_FOUND "Task not found") in
  let s' := mkSession sample_db [Get 5] in
  get_task (lit "u1") 5 request_u1 sample_session = (not_found, s')
  ∧ update_task (lit "u1") 5 (TaskUpdate.mk (Some (lit "mine")) None)
      request_u1 70 sample_session = (not_found, s')
  ∧ delete_task (lit "u1") 5 request_u1 sample_session = (not_found, s')
  ∧ toggle_task_completion (lit "u1") 5 request_u1 70 sample_session
    = (not_found, s').
Proof.
  apply (not_owner_gets_not_found (lit "u1") 5 request_u1 sample_session
           sample_task_c (TaskUpdate.mk (Some (lit "mine")) None) 70).
  - reflexivity.
  - vm_compute. reflexivity.
  - vm_compute. discriminate.
Defined.

(** ** Titles: validation and trimming *)

Lemma lstrip_length (s : str) : (length (lstrip s) ≤ length s)%nat.
Proof.
  induction s as [| c s IH]; simpl; [lia |].
  destruct (isspace c); simpl; lia.
Qed.

Lemma strip_length (s : str) : (length (strip s) ≤ length s)%nat.
Proof.
  unfold strip, rstrip. rewrite length_reverse.
  etransitivity; [apply lstrip_length |].
  rewrite length_reverse. apply lstrip_length.
Qed.

(** A string made of whitespace only is trimmed to the empty string. *)
Lemma strip_all_space (s : str) : forallb isspace s = true → strip s = [].
Proof.
  intros H. unfold strip.
  assert (lstrip s = []) as ->; [| reflexivity].
  induction s as [| c s IH]; [reflexivity |].
  simpl in *. apply andb_prop in H as [-> H]. by apply IH.
Qed.

(** Trimming never makes an accepted title longer than the 200 characters
    the schema allows. *)
Lemma created_title_at_most_200 (task_data : TaskCreate.t) :
  TaskCreate.valid task_data = true →
  (length (strip (TaskCreate.title task_data)) ≤ 200)%nat.
Proof.
  unfold TaskCreate.valid. intros H.
  apply andb_prop in H as [H _]. apply andb_prop in H as [_ H].
  apply Nat.leb_le in H. pose proof (strip_length (TaskCreate.title task_data)).
  lia.
Qed.

(** C3. The schema accepts a title of three spaces (its length is 3, within
    1..200); [create_task] trims it and stores a task whose title is empty,
    and [update_task] does the same to an existing task. A stored title is
    therefore not always non-empty. *)
Theorem whitespace_title_is_stored_empty :
  let created :=
    create_task (lit "u1") (TaskCreate.mk (lit "   ") None) request_u1 50 50
      sample_session in
  let updated :=
    update_task (lit "u1") 1 (TaskUpdate.mk (Some (lit "   ")) None)
      request_u1 60 sample_session in
  TaskCreate.valid (TaskCreate.mk (lit "   ") None) = true
  ∧ created.1
    = Return (mkApiResponse true
        (Some (DataTask (TaskResponse.mk 6 (lit "u1") [] None false 50 50)))
        None)
  ∧ Task.title <$> db created.2 !! 6 = Some []
  ∧ TaskUpdate.valid (TaskUpdate.mk (Some (lit "   ")) None) = true
  ∧ updated.1
    = Return (mkApiResponse true
        (Some (DataTask (TaskResponse.mk 1 (lit "u1") [] None false 10 60)))
        None)
  ∧ Task.title <$> db updated.2 !! 1 = Some [].
Proof. vm_compute. repeat split; reflexivity. Qed.

(** ** Queries *)

Lemma newer_first_total : Total newer_first.
Proof. intros a b. unfold newer_first. lia. Qed.

Lemma rows_elem (m : gmap Z Task.t) (x : Task.t) :
  x ∈ rows m ↔ ∃ k y, m !! k = Some y ∧ x = Task.set_id k y.
Proof.
  unfold rows. rewrite list_elem_of_fmap. split.
  - intros [[k y] [-> Hin]]. apply elem_of_map_to_list in Hin. eauto.
  - intros (k & y & Hm & ->). exists (k, y). split; [reflexivity |].
    by apply elem_of_map_to_list.
Qed.

Lemma rows_NoDup (m : gmap Z Task.t) : NoDup (rows m).
Proof.
  unfold rows. apply NoDup_fmap_2_strong; [| apply NoDup_map_to_list].
  intros [k1 y1] [k2 y2] H1 H2 Heq. simpl in Heq.
  apply elem_of_map_to_list in H1, H2.
  assert (k1 = k2) as -> by (unfold Task.set_id in Heq; congruence).
  congruence.
Qed.

Lemma run_query_Permutation (q : Query) (m : gmap Z Task.t) :
  run_query q m
  ≡ₚ filter (λ x, forallb (λ c, holds c x) (wheres q) = true) (rows m).
Proof.
  unfold run_query. destruct (created_at_desc q); [| reflexivity].
  apply merge_sort_Permutation.
Qed.

Lemma run_query_Sorted (q : Query) (m : gmap Z Task.t) :
  created_at_desc q = true → Sorted newer_first (run_query q m).
Proof.
  unfold run_query. intros ->.
  apply (@Sorted_merge_sort _ newer_first _ newer_first_total).
Qed.

Lemma run_query_elem (q : Query) (m : gmap Z Task.t) (x : Task.t) :
  x ∈ run_query q m
  ↔ (∃ k y, m !! k = Some y ∧ x = Task.set_id k y)
    ∧ forallb (λ c, holds c x) (wheres q) = true.
Proof.
  rewrite run_query_Permutation, list_elem_of_filter, rows_elem. tauto.
Qed.

Lemma run_query_NoDup (q : Query) (m : gmap Z Task.t) : NoDup (run_query q m).
Proof.
  rewrite run_query_Permutation. apply NoDup_filter, rows_NoDup.
Qed.

(** Dumping tasks that all carry an id does not raise and does not use the
    session. *)
Lemma dump_all_run (tasks : list Task.t) (s : Session) :
  Forall (λ x, is_Some (Task.id x)) tasks →
  dump_all tasks s = (Return (omap TaskResponse.model_validate tasks), s).
Proof.
  induction 1 as [| x l [k Hk] _ IH]; [reflexivity |].
  simpl. unfold bind, dump, TaskResponse.model_validate. rewrite Hk. simpl.
  unfold bind in IH. rewrite IH. reflexivity.
Qed.

Lemma run_query_has_id (q : Query) (m : gmap Z Task.t) :
  Forall (λ x, is_Some (Task.id x)) (run_query q m).
Proof.
  apply Forall_forall. intros x [(k & y & _ & ->) _]%run_query_elem.
  simpl. eauto.
Qed.

Lemma holds_set_id (cs : list clause) (k : Z) (y : Task.t) :
  forallb (λ c, holds c (Task.set_id k y)) cs = forallb (λ c, holds c y) cs.
Proof.
  induction cs as [| c cs IH]; [reflexivity |].
  simpl. rewrite IH. by destruct c.
Qed.

Lemma dumped_elem (q : Query) (m : gmap Z Task.t) (r : TaskResponse.t) :
  r ∈ omap TaskResponse.model_validate (run_query q m)
  ↔ ∃ y, m !! TaskResponse.id r = Some y
         ∧ r = TaskResponse.of_task (TaskResponse.id r) y
         ∧ forallb (λ c, holds c y) (wheres q) = true.
Proof.
  rewrite list_elem_of_omap. split.
  - intros (x & [(k & y & Hm & ->) Hc]%run_query_elem & Hr).
    unfold TaskResponse.model_validate in Hr. simpl in Hr.
    injection Hr as <-. exists y. simpl. split; [exact Hm |].
    split; [reflexivity |].
    by rewrite <- (holds_set_id _ k).
  - intros (y & Hm & Hr & Hc). exists (Task.set_id (TaskResponse.id r) y).
    split.
    + apply run_query_elem. split; [eauto |]. by rewrite holds_set_id.
    + rewrite Hr at 2. reflexivity.
Qed.

Lemma dumped_NoDup (q : Query) (m : gmap Z Task.t) :
  NoDup (omap TaskResponse.model_validate (run_query q m)).
Proof.
  pose proof (run_query_NoDup q m) as Hnd.
  pose proof (run_query_has_id q m) as Hid.
  induction Hnd as [| x l Hx Hnd IH]; simpl; [constructor |].
  apply Forall_cons in Hid as [[k Hk] Hid].
  unfold TaskResponse.model_validate at 1. rewrite Hk.
  constructor; [| by apply IH].
  intros (x' & Hx' & Hr)%list_elem_of_omap. apply Hx.
  unfold TaskResponse.model_validate in Hr.
  destruct (Task.id x') as [k' |] eqn:Hk'; [| discriminate].
  injection Hr as Hr.
  assert (x' = x) as ->; [| exact Hx'].
  destruct x, x'. unfold TaskResponse.of_task in Hr. simpl in *. congruence.
Qed.

Lemma dumped_Sorted (q : Query) (m : gmap Z Task.t) :
  created_at_desc q = true →
  Sorted created_at_descending
    (omap TaskResponse.model_validate (run_query q m)).
Proof.
  intros Hq. pose proof (run_query_Sorted q m Hq) as Hs.
  pose proof (run_query_has_id q m) as Hid.
  apply Sorted_StronglySorted in Hs; [| intros a b c; unfold newer_first; lia].
  apply StronglySorted_Sorted.
  induction Hs as [| x l Hs IH Hall]; simpl; [constructor |].
  apply Forall_cons in Hid as [[k Hk] Hid].
  unfold TaskResponse.model_validate at 1. rewrite Hk.
  constructor; [by apply IH |].
  apply Forall_forall. intros r (x' & Hx' & Hr)%list_elem_of_omap.
  rewrite Forall_forall in Hall. specialize (Hall x' Hx').
  unfold TaskResponse.model_validate in Hr.
  destruct (Task.id x'); [| discriminate]. injection Hr as <-.
  exact Hall.
Qed.

(** ** Listing *)

(** The clauses [list_tasks] puts on its query, by filter value. *)
Lemma list_tasks_run (user_id : str) (request : Request)
    (filter_status : str) (s : Session) :
  state_user_id request = PStr user_id →
  ∃ q,
    wheres q
    = user_id_eq user_id
      :: (if bool_decide (filter_status = lit "pending")
          then [completed_eq false]
          else if bool_decide (filter_status = lit "completed")
          then [completed_eq true]
          else [])
    ∧ created_at_desc q = true
    ∧ list_tasks user_id request filter_status s
      = (Return (mkApiResponse true
           (Some (DataTasks (omap TaskResponse.model_validate
                               (run_query q (db s)))))
           None),
         mkSession (db s) (log s ++ [Select])).
Proof.
  intros Hid%py_eq_str_true. eexists. split; [| split]; cycle 2.
  - step. rewrite Hid. simpl. unfold bind.
    rewrite dump_all_run by apply run_query_has_id. reflexivity.
  - simpl. repeat case_bool_decide; reflexivity.
  - simpl. reflexivity.
Qed.

Lemma holds_owner_and_flag (u : str) (b : bool) (y : Task.t) :
  forallb (λ c, holds c y) [user_id_eq u; completed_eq b] = true
  ↔ Task.user_id y = u ∧ Task.completed y = b.
Proof.
  simpl.
  by rewrite andb_true_r, andb_true_iff, bool_decide_eq_true,
    Bool.eqb_true_iff.
Qed.

Lemma holds_owner (u : str) (y : Task.t) :
  forallb (λ c, holds c y) [user_id_eq u] = true ↔ Task.user_id y = u.
Proof. simpl. by rewrite andb_true_r, bool_decide_eq_true. Qed.

Lemma pending_is_not_completed : lit "pending" ≠ lit "completed".
Proof. vm_compute. discriminate. Qed.

(** The rows a query of [list_tasks] selects, in the words of the filter. *)
Lemma list_clauses_matches (user_id filter_status : str) (y : Task.t) :
  forallb (λ c, holds c y)
    (user_id_eq user_id
     :: (if bool_decide (filter_status = lit "pending")
         then [completed_eq false]
         else if bool_decide (filter_status = lit "completed")
         then [completed_eq true]
         else [])) = true
  ↔ Task.user_id y = user_id
    ∧ matches_filter filter_status (Task.completed y).
Proof.
  pose proof pending_is_not_completed as Hpc. unfold matches_filter.
  repeat case_bool_decide; subst;
    rewrite ?holds_owner_and_flag, ?holds_owner; intuition congruence.
Qed.

(** C6. Once the guard has let owner [O] through, [list_tasks] succeeds for
    every filter value with success=true and a list (possibly empty) that
    holds exactly the stored tasks owned by [O] whose completion flag passes
    the filter, each once, newest [created_at] first; none of them belongs
    to another identity, and the table is left as it was. *)
Theorem list_tasks_owned_matching_newest_first
    (user_id : str) (request : Request) (filter_status : str) (s : Session) :
  state_user_id request = PStr user_id →
  ∃ tasks,
    list_tasks user_id request filter_status s
    = (Return (mkApiResponse true (Some (DataTasks tasks)) None),
       mkSession (db s) (log s ++ [Select]))
    ∧ (∀ r, r ∈ tasks
            ↔ ∃ y, db s !! TaskResponse.id r = Some y
                   ∧ r = TaskResponse.of_task (TaskResponse.id r) y
                   ∧ Task.user_id y = user_id
                   ∧ matches_filter filter_status (Task.completed y))
    ∧ NoDup tasks
    ∧ Sorted created_at_descending tasks
    ∧ Forall (λ r, TaskResponse.user_id r = user_id) tasks.
Proof.
  intros Hid.
  destruct (list_tasks_run user_id request filter_status s Hid)
    as (q & Hw & Hord & Hrun).
  eexists. split; [exact Hrun |].
  assert (Hmem : ∀ r,
    r ∈ omap TaskResponse.model_validate (run_query q (db s))
    ↔ ∃ y, db s !! TaskResponse.id r = Some y
           ∧ r = TaskResponse.of_task (TaskResponse.id r) y
           ∧ Task.user_id y = user_id
           ∧ matches_filter filter_status (Task.completed y)).
  { intros r. rewrite dumped_elem, Hw.
    by setoid_rewrite list_clauses_matches. }
  split; [exact Hmem |].
  split; [apply dumped_NoDup |].
  split; [by apply dumped_Sorted |].
  apply Forall_forall. intros r (y & _ & -> & Hown & _)%Hmem. exact Hown.
Qed.

Lemma list_tasks_owned_matching_newest_first_witness :
  ∃ tasks,
    list_tasks (lit "u1") request_u1 (lit "pending") sample_session
    = (Return (mkApiResponse true (Some (DataTasks tasks)) None),
       mkSession sample_db [Select])
    ∧ (∀ r, r ∈ tasks
            ↔ ∃ y, sample_db !! TaskResponse.id r = Some y
                   ∧ r = TaskResponse.of_task (TaskResponse.id r) y
                   ∧ Task.user_id y = lit "u1"
                   ∧ matches_filter (lit "pending") (Task.completed y))
    ∧ NoDup tasks
    ∧ Sorted created_at_descending tasks
    ∧ Forall (λ r, TaskResponse.user_id r = lit "u1") tasks.
Proof.
  apply (list_tasks_owned_matching_newest_first (lit "u1") request_u1
           (lit "pending") sample_session).
  reflexivity.
Defined.

(** C9. A filter value that is neither "pending" nor "completed" ("all", or
    any other string) is not rejected: [list_tasks] answers as it does for
    "all", with every stored task of the owner, whatever its completion
    flag. *)
Theorem list_tasks_unrecognized_filter
    (user_id : str) (request : Request) (filter_status : str) (s : Session) :
  state_user_id request = PStr user_id →
  filter_status ≠ lit "pending" →
  filter_status ≠ lit "completed" →
  list_tasks user_id request filter_status s
  = list_tasks user_id request (lit "all") s
  ∧ ∃ tasks,
      list_tasks user_id request filter_status s
      = (Return (mkApiResponse true (Some (DataTasks tasks)) None),
         mkSession (db s) (log s ++ [Select]))
      ∧ (∀ r, r ∈ tasks
              ↔ ∃ y, db s !! TaskResponse.id r = Some y
                     ∧ r = TaskResponse.of_task (TaskResponse.id r) y
                     ∧ Task.user_id y = user_id)
      ∧ NoDup tasks.
Proof.
  intros Hid Hp Hc.
  assert (Hp' : bool_decide (filter_status = lit "pending") = false)
    by (by apply bool_decide_eq_false_2).
  assert (Hc' : bool_decide (filter_status = lit "completed") = false)
    by (by apply bool_decide_eq_false_2).
  split.
  - unfold list_tasks. rewrite Hp', Hc'. reflexivity.
  - destruct (list_tasks_run user_id request filter_status s Hid)
      as (q & Hw & _ & Hrun).
    rewrite Hp', Hc' in Hw.
    eexists. split; [exact Hrun |]. split; [| apply dumped_NoDup].
    intros r. rewrite dumped_elem, Hw. by setoid_rewrite holds_owner.
Qed.

Lemma list_tasks_unrecognized_filter_witness :
  list_tasks (lit "u1") request_u1 (lit "done") sample_session
  = list_tasks (lit "u1") request_u1 (lit "all") sample_session
  ∧ ∃ tasks,
      list_tasks (lit "u1") request_u1 (lit "done") sample_session
      = (Return (mkApiResponse true (Some (DataTasks tasks)) None),
         mkSession sample_db [Select])
      ∧ (∀ r, r ∈ tasks
              ↔ ∃ y, sample_db !! TaskResponse.id r = Some y
                     ∧ r = TaskResponse.of_task (TaskResponse.id r) y
                     ∧ Task.user_id y = lit "u1")
      ∧ NoDup tasks.
Proof.
  apply (list_tasks_unrecognized_filter (lit "u1") request_u1 (lit "done")
           sample_session).
  - reflexivity.
  - vm_compute. discriminate.
  - vm_compute. discriminate.
Defined.

(** ** Updating and toggling *)

(** One toggle of an owned task: the flag is flipped, [updated_at] becomes
    the clock reading, every other attribute stays. *)
Lemma toggle_task_completion_run
    (user_id : str) (task_id : Z) (request : Request) (utcnow : datetime)
    (s : Session) (x : Task.t) :
  state_user_id request = PStr user_id →
  db s !! task_id = Some x →
  Task.user_id x = user_id →
  let x' := Task.mk (Some task_id) (Task.user_id x) (Task.title x)
              (Task.description x) (negb (Task.completed x))
              (Task.created_at x) utcnow in
  toggle_task_completion user_id task_id request utcnow s
  = (Return (mkApiResponse true
       (Some (DataTask (TaskResponse.of_task task_id x'))) None),
     mkSession (<[task_id := x']> (db s))
       (log s ++ [Get task_id; Flush task_id; Refresh task_id])).
Proof.
  intros Hid%py_eq_str_true Hx Hown.
  assert (Hdec : bool_decide (Task.user_id x = user_id) = true)
    by (by apply bool_decide_eq_true).
  step. rewrite Hid. simpl. rewrite Hx. simpl. rewrite Hdec. simpl.
  rewrite <- app_assoc. reflexivity.
Qed.

(** C7, as amended. For a task the caller owns, one toggle flips
    [completed] and sets [updated_at] to the clock reading of the call; a
    second toggle brings [completed] back to its first value, in the
    response and in the table. [updated_at] grows strictly on each call
    when each call reads the clock strictly later than the value stored
    before it. *)
Theorem toggle_twice_restores_completed
    (user_id : str) (task_id : Z) (request : Request)
    (utcnow1 utcnow2 : datetime) (s : Session) (x : Task.t) :
  state_user_id request = PStr user_id →
  db s !! task_id = Some x →
  Task.user_id x = user_id →
  ∃ r1 s1 r2 s2,
    toggle_task_completion user_id task_id request utcnow1 s
    = (Return (mkApiResponse true (Some (DataTask r1)) None), s1)
    ∧ toggle_task_completion user_id task_id request utcnow2 s1
      = (Return (mkApiResponse true (Some (DataTask r2)) None), s2)
    ∧ TaskResponse.completed r1 = negb (Task.completed x)
    ∧ TaskResponse.updated_at r1 = utcnow1
    ∧ TaskResponse.completed r2 = Task.completed x
    ∧ TaskResponse.updated_at r2 = utcnow2
    ∧ Task.completed <$> db s1 !! task_id = Some (negb (Task.completed x))
    ∧ Task.completed <$> db s2 !! task_id = Some (Task.completed x)
    ∧ (Task.updated_at x < utcnow1 → utcnow1 < utcnow2 →
       Task.updated_at x < TaskResponse.updated_at r1
       ∧ TaskResponse.updated_at r1 < TaskResponse.updated_at r2).
Proof.
  intros Hid Hx Hown.
  set (x1 := Task.mk (Some task_id) (Task.user_id x) (Task.title x)
               (Task.description x) (negb (Task.completed x))
               (Task.created_at x) utcnow1).
  set (s1 := mkSession (<[task_id := x1]> (db s))
               (log s ++ [Get task_id; Flush task_id; Refresh task_id])).
  assert (Hx1 : db s1 !! task_id = Some x1) by apply lookup_insert_eq.
  pose proof (toggle_task_completion_run user_id task_id request utcnow1 s x
                Hid Hx Hown) as H1.
  pose proof (toggle_task_completion_run user_id task_id request utcnow2 s1 x1
                Hid Hx1 Hown) as H2.
  simpl in H1, H2.
  do 4 eexists. split; [exact H1 |]. split; [exact H2 |].
  simpl. rewrite !lookup_insert_eq. simpl.
  rewrite negb_involutive. repeat split; done.
Qed.

Lemma toggle_twice_restores_completed_witness :
  ∃ r1 s1 r2 s2,
    toggle_task_completion (lit "u1") 1 request_u1 50 sample_session
    = (Return (mkApiResponse true (Some (DataTask r1)) None), s1)
    ∧ toggle_task_completion (lit "u1") 1 request_u1 60 s1
      = (Return (mkApiResponse true (Some (DataTask r2)) None), s2)
    ∧ TaskResponse.completed r1 = true
    ∧ TaskResponse.updated_at r1 = 50
    ∧ TaskResponse.completed r2 = false
    ∧ TaskResponse.updated_at r2 = 60
    ∧ Task.completed <$> db s1 !! 1 = Some true
    ∧ Task.completed <$> db s2 !! 1 = Some false
    ∧ (10 < 50 → 50 < 60 →
       10 < TaskResponse.updated_at r1
       ∧ TaskResponse.updated_at r1 < TaskResponse.updated_at r2).
Proof.
  apply (toggle_twice_restores_completed (lit "u1") 1 request_u1 50 60
           sample_session sample_task_a).
  - reflexivity.
  - vm_compute. reflexivity.
  - reflexivity.
Defined.

(** C7, as stated, fails: two toggles that read the same clock value (50)
    leave [updated_at] at 50 after the second call, not strictly later. *)
Lemma toggle_updated_at_can_stand_still :
  ∃ r1 s1 r2 s2,
    toggle_task_completion (lit "u1") 1 request_u1 50 sample_session
    = (Return (mkApiResponse true (Some (DataTask r1)) None), s1)
    ∧ toggle_task_completion (lit "u1") 1 request_u1 50 s1
      = (Return (mkApiResponse true (Some (DataTask r2)) None), s2)
    ∧ ¬ (TaskResponse.updated_at r1 < TaskResponse.updated_at r2).
Proof.
  do 4 eexists. split; [vm_compute; reflexivity |].
  split; [vm_compute; reflexivity |]. simpl. lia.
Qed.

(** ** The token verifier *)

(** What [verify_jwt] returns, case by case. *)
Lemma verify_jwt_cases
    (jwt_decode : str → str → list str → datetime → decode_result)
    (SECRET_KEY : str) (utcoffset : Z → Z)
    (token : str) (utcnow : datetime) (payload : dict) :
  verify_jwt jwt_decode SECRET_KEY utcoffset token utcnow = Some payload
  ↔ jwt_decode token SECRET_KEY [lit "HS256"] utcnow = Decoded payload
    ∧ (truthy (dict_get payload (lit "exp")) = false
       ∨ ∃ d, datetime_fromtimestamp utcoffset (dict_get payload (lit "exp"))
              = Some d ∧ utcnow ≤ d).
Proof.
  unfold verify_jwt.
  destruct (jwt_decode token SECRET_KEY [lit "HS256"] utcnow) as [p | |];
    [| split; [discriminate | intros [? _]; discriminate] ..].
  destruct (truthy (dict_get p (lit "exp"))) eqn:Ht.
  - destruct (datetime_fromtimestamp utcoffset (dict_get p (lit "exp")))
      as [d |] eqn:Hd.
    + destruct (Z.ltb_spec d utcnow).
      * split; [discriminate |]. intros [[= <-] [Hf | (d' & Hd' & Hle)]].
        -- congruence.
        -- rewrite Hd in Hd'. injection Hd' as <-. lia.
      * split.
        -- intros [= <-]. split; [reflexivity |]. right. eauto.
        -- intros [[= <-] _]. reflexivity.
    + split; [discriminate |]. intros [[= <-] [Hf | (d' & Hd' & _)]].
      * congruence.
      * rewrite Hd in Hd'. discriminate.
  - split.
    + intros [= <-]. split; [reflexivity |]. left. exact Ht.
    + intros [[= <-] _]. reflexivity.
Qed.

(** ** Responses *)

(** A handler either returns an envelope with [success=true], data and no
    error, or raises an [HTTPException] with status 403 or 404. *)
Lemma handler_outcome (op : operation) (request : Request) (s : Session) :
  match (handler op request s).1 with
  | Return r => success r = true ∧ is_Some (data r) ∧ error r = None
  | Raise e =>
      ∃ detail, e = HTTPException HTTP_403_FORBIDDEN detail
                ∨ e = HTTPException HTTP_404_NOT_FOUND detail
  end.
Proof.
  destruct op; step;
    destruct (py_eq_str (state_user_id request) user_id); simpl; eauto.
  - unfold bind. rewrite dump_all_run by apply run_query_has_id. simpl. eauto.
  - destruct (db s !! task_id) as [x |]; simpl; eauto.
    destruct (bool_decide (Task.user_id x = user_id)); simpl; eauto.
  - destruct (db s !! task_id) as [x |]; simpl; eauto.
    destruct (bool_decide (Task.user_id x = user_id)); simpl; eauto.
  - destruct (db s !! task_id) as [x |]; simpl; eauto.
    destruct (bool_decide (Task.user_id x = user_id)); simpl; eauto.
  - destruct (db s !! task_id) as [x |]; simpl; eauto.
    destruct (bool_decide (Task.user_id x = user_id)); simpl; eauto.
Qed.

Lemma middleware_outcome
    (jwt_decode : str → str → list str → datetime → decode_result)
    (SECRET_KEY : str) (utcoffset : Z → Z)
    (request : Request) (utcnow : datetime) (e : exn) :
  verify_jwt_middleware jwt_decode SECRET_KEY utcoffset request utcnow
  = Raise e →
  ∃ detail, e = HTTPException HTTP_401_UNAUTHORIZED detail.
Proof.
  unfold verify_jwt_middleware. intros H.
  repeat case_match; simplify_eq; eauto.
Qed.

(** C5, as amended. Whatever the operation and the request, a response that
    reports success is an [ApiResponse] with [success=true], data present
    and [error] empty; every failure (authentication, wrong path identity,
    task not found or not owned) is an [HTTPException] carrying status 401,
    403 or 404 and a detail string. No [ApiResponse] with [success=false]
    is ever built. *)
Theorem success_is_enveloped_failure_is_exception
    (jwt_decode : str → str → list str → datetime → decode_result)
    (SECRET_KEY : str) (utcoffset : Z → Z)
    (op : operation) (request : Request) (utcnow : datetime) (s : Session) :
  match (endpoint jwt_decode SECRET_KEY utcoffset op request utcnow s).1 with
  | Return r => success r = true ∧ is_Some (data r) ∧ error r = None
  | Raise e =>
      ∃ detail, e = HTTPException HTTP_401_UNAUTHORIZED detail
                ∨ e = HTTPException HTTP_403_FORBIDDEN detail
                ∨ e = HTTPException HTTP_404_NOT_FOUND detail
  end.
Proof.
  unfold endpoint.
  destruct (verify_jwt_middleware jwt_decode SECRET_KEY utcoffset request
              utcnow) as [request' | e] eqn:Hmw.
  - pose proof (handler_outcome op request' s) as H.
    destruct (handler op request' s).1; [exact H |].
    destruct H as [detail [-> | ->]]; eauto.
  - apply middleware_outcome in Hmw as [detail ->]. simpl. eauto.
Qed.

(** C5, as stated, fails: a request without an [Authorization] header, and
    a request for a task of another owner, end in an exception, not in an
    envelope with [success=false]. *)
Lemma failure_is_not_enveloped :
  let missing_header :=
    endpoint sample_decode (lit "secret") utc
      (ListTasks (lit "u1") (lit "all")) request_anonymous 0 sample_session in
  let not_found :=
    endpoint sample_decode (lit "secret") utc
      (GetTask (lit "u1") 5) request_bearer_u1 0 sample_session in
  missing_header.1
  = Raise (HTTPException HTTP_401_UNAUTHORIZED "Missing Authorization header")
  ∧ not_found.1 = Raise (HTTPException HTTP_404_NOT_FOUND "Task not found")
  ∧ ¬ enveloped missing_header.1
  ∧ ¬ enveloped not_found.1.
Proof.
  repeat split; try (vm_compute; reflexivity);
    intros [r Hr]; vm_compute in Hr; discriminate.
Qed.

(** * Further properties *)

(** ** Trimming *)

Lemma lstrip_head (s : str) (c : N) :
  head (lstrip s) = Some c → isspace c = false.
Proof.
  induction s as [| a s IH]; simpl; [discriminate |].
  destruct (isspace a) eqn:Ha; [exact IH |]. simpl. congruence.
Qed.

Lemma lstrip_fixed (s : str) :
  (∀ c, head s = Some c → isspace c = false) → lstrip s = s.
Proof.
  destruct s as [| a s]; [reflexivity |]. intros H. simpl.
  by rewrite (H a eq_refl).
Qed.

Lemma lstrip_suffix (s : str) : ∃ ws, s = ws ++ lstrip s.
Proof.
  induction s as [| a s [ws IH]]; [by exists [] |]. simpl.
  destruct (isspace a).
  - exists (a :: ws). simpl. by rewrite <- IH.
  - by exists [].
Qed.

Lemma lstrip_nil_iff (s : str) : lstrip s = [] ↔ forallb isspace s = true.
Proof.
  induction s as [| a s IH]; simpl; [done |].
  destruct (isspace a); simpl; [exact IH |]. split; discriminate.
Qed.

Lemma rstrip_last (s : str) (c : N) :
  last (rstrip s) = Some c → isspace c = false.
Proof. unfold rstrip. rewrite last_reverse. apply lstrip_head. Qed.

Lemma rstrip_fixed (s : str) :
  (∀ c, last s = Some c → isspace c = false) → rstrip s = s.
Proof.
  intros H. unfold rstrip. rewrite lstrip_fixed; [apply reverse_involutive |].
  intros c. rewrite head_reverse. apply H.
Qed.

Lemma rstrip_prefix (s : str) : ∃ ws, s = rstrip s ++ ws.
Proof.
  unfold rstrip. destruct (lstrip_suffix (reverse s)) as [ws Hws].
  exists (reverse ws).
  rewrite <- reverse_app, <- Hws. by rewrite reverse_involutive.
Qed.

Lemma rstrip_nil_iff (s : str) : rstrip s = [] ↔ forallb isspace s = true.
Proof.
  unfold rstrip.
  assert (Hrev : ∀ l : str, reverse l = [] ↔ l = []).
  { intros l. split; [| by intros ->].
    intros H. apply (f_equal reverse) in H.
    by rewrite reverse_involutive in H. }
  rewrite Hrev, lstrip_nil_iff, !forallb_forall.
  split; intros H x Hx; apply H; apply list_elem_of_In;
    apply list_elem_of_In in Hx; by apply elem_of_reverse.
Qed.

Lemma strip_trimmed (s : str) : trimmed (strip s).
Proof.
  unfold strip. split; [| apply rstrip_last].
  intros c Hc. destruct (rstrip_prefix (lstrip s)) as [ws Hws].
  apply (lstrip_head s). rewrite Hws.
  destruct (rstrip (lstrip s)); [discriminate | exact Hc].
Qed.

Lemma strip_fixed (s : str) : trimmed s → strip s = s.
Proof.
  intros [Hh Hl]. unfold strip. rewrite lstrip_fixed by exact Hh.
  by apply rstrip_fixed.
Qed.

Lemma strip_nil_iff (s : str) : strip s = [] ↔ forallb isspace s = true.
Proof.
  unfold strip. rewrite rstrip_nil_iff. split.
  - intros H. destruct (lstrip_suffix s) as [ws Hws].
    assert (Hl : lstrip s = []).
    { destruct (lstrip s) as [| a l] eqn:E; [reflexivity |].
      simpl in H. apply andb_prop in H as [Ha _].
      by rewrite (lstrip_head s a) in Ha by (by rewrite E). }
    by apply lstrip_nil_iff.
  - intros H. apply lstrip_nil_iff in H. by rewrite H.
Qed.

Lemma strip_elem (s : str) (c : N) : c ∈ strip s → c ∈ s.
Proof.
  unfold strip. intros Hc.
  destruct (rstrip_prefix (lstrip s)) as [ws1 H1].
  destruct (lstrip_suffix s) as [ws2 H2].
  rewrite H2, H1. set_solver.
Qed.

(** ** The store *)

(** The id given to a new row is not in use. *)
Lemma next_id_fresh (m : gmap Z Task.t) : m !! next_id m = None.
Proof.
  assert (H : ∀ k, is_Some (m !! k) → k ≤ map_fold (λ k _ acc, Z.max k acc) 0 m).
  { apply (map_fold_weak_ind (λ r m, ∀ k, is_Some (m !! k) → k ≤ r)).
    - intros k [x Hx]. by rewrite lookup_empty in Hx.
    - intros i x m' r _ IH k Hk. apply lookup_insert_is_Some in Hk.
      destruct Hk as [-> | [_ Hk]]; [lia |]. specialize (IH k Hk). lia. }
  destruct (m !! next_id m) eqn:E; [| reflexivity].
  specialize (H (next_id m) (mk_is_Some _ _ E)). unfold next_id in H. lia.
Qed.

(** ** Handlers, case by case *)

Lemma created_description_run (d : option str) :
  match d with
  | Some v => if truthy (PStr v) then Some (strip v) else None
  | None => None
  end = created_description d.
Proof.
  destruct d as [v |]; [| reflexivity]. simpl. by case_bool_decide.
Qed.

Lemma create_task_run
    (user_id : str) (task_data : TaskCreate.t) (request : Request)
    (utcnow1 utcnow2 : datetime) (s : Session) :
  state_user_id request = PStr user_id →
  let k := next_id (db s) in
  let x' := Task.mk (Some k) user_id (strip (TaskCreate.title task_data))
              (created_description (TaskCreate.description task_data))
              false utcnow1 utcnow2 in
  create_task user_id task_data request utcnow1 utcnow2 s
  = (Return (mkApiResponse true
       (Some (DataTask (TaskResponse.of_task k x'))) None),
     mkSession (<[k := x']> (db s)) (log s ++ [Flush k; Refresh k])).
Proof.
  intros Hid%py_eq_str_true. unfold create_task. rewrite Hid. simpl.
  rewrite created_description_run. reflexivity.
Qed.

Lemma get_task_run
    (user_id : str) (task_id : Z) (request : Request) (s : Session)
    (x : Task.t) :
  state_user_id request = PStr user_id →
  db s !! task_id = Some x →
  Task.user_id x = user_id →
  get_task user_id task_id request s
  = (Return (mkApiResponse true
       (Some (DataTask (TaskResponse.of_task task_id x))) None),
     mkSession (db s) (log s ++ [Get task_id])).
Proof.
  intros Hid%py_eq_str_true Hx Hown.
  assert (Hdec : bool_decide (Task.user_id x = user_id) = true)
    by (by apply bool_decide_eq_true).
  step. rewrite Hid. simpl. rewrite Hx. simpl. rewrite Hdec. reflexivity.
Qed.

Lemma delete_task_run
    (user_id : str) (task_id : Z) (request : Request) (s : Session)
    (x : Task.t) :
  state_user_id request = PStr user_id →
  db s !! task_id = Some x →
  Task.user_id x = user_id →
  delete_task user_id task_id request s
  = (Return (mkApiResponse true
       (Some (DataMessage "Task deleted successfully")) None),
     mkSession (delete task_id (db s))
       (log s ++ [Get task_id; Delete task_id])).
Proof.
  intros Hid%py_eq_str_true Hx Hown.
  assert (Hdec : bool_decide (Task.user_id x = user_id) = true)
    by (by apply bool_decide_eq_true).
  step. rewrite Hid. simpl. rewrite Hx. simpl. rewrite Hdec. simpl.
  by rewrite <- app_assoc.
Qed.

Lemma update_task_run
    (user_id : str) (task_id : Z) (task_data : TaskUpdate.t)
    (request : Request) (utcnow : datetime) (s : Session) (x : Task.t) :
  state_user_id request = PStr user_id →
  db s !! task_id = Some x →
  Task.user_id x = user_id →
  let x' := Task.mk (Some task_id) (Task.user_id x)
              (from_option strip (Task.title x) (TaskUpdate.title task_data))
              (from_option (λ v, Some (strip v)) (Task.description x)
                 (TaskUpdate.description task_data))
              (Task.completed x) (Task.created_at x) utcnow in
  update_task user_id task_id task_data request utcnow s
  = (Return (mkApiResponse true
       (Some (DataTask (TaskResponse.of_task task_id x'))) None),
     mkSession (<[task_id := x']> (db s))
       (log s ++ [Get task_id; Flush task_id; Refresh task_id])).
Proof.
  intros Hid%py_eq_str_true Hx Hown.
  assert (Hdec : bool_decide (Task.user_id x = user_id) = true)
    by (by apply bool_decide_eq_true).
  step. rewrite Hid. simpl. rewrite Hx. simpl. rewrite Hdec. simpl.
  rewrite <- app_assoc. simpl.
  destruct (TaskUpdate.title task_data), (TaskUpdate.description task_data);
    reflexivity.
Qed.

(** A task that is missing, or stored under another owner, is reported as
    not found by the four handlers that look a task up. *)
Lemma lookup_not_found
    (user_id : str) (task_id : Z) (request : Request) (s : Session)
    (task_data : TaskUpdate.t) (utcnow : datetime) :
  state_user_id request = PStr user_id →
  (∀ x, db s !! task_id = Some x → Task.user_id x ≠ user_id) →
  let not_found := Raise (HTTPException HTTP_404_NOT_FOUND "Task not found") in
  let s' := mkSession (db s) (log s ++ [Get task_id]) in
  get_task user_id task_id request s = (not_found, s')
  ∧ update_task user_id task_id task_data request utcnow s = (not_found, s')
  ∧ delete_task user_id task_id request s = (not_found, s')
  ∧ toggle_task_completion user_id task_id request utcnow s = (not_found, s').
Proof.
  intros Hid%py_eq_str_true Hx. simpl.
  destruct (db s !! task_id) as [x |] eqn:E.
  - assert (Hdec : bool_decide (Task.user_id x = user_id) = false)
      by (apply bool_decide_eq_false; by apply Hx).
    repeat split; step; rewrite Hid; simpl; rewrite E; simpl;
      rewrite Hdec; reflexivity.
  - repeat split; step; rewrite Hid; simpl; rewrite E; reflexivity.
Qed.

(** What any handler does to the table: nothing, or it writes one row of
    the caller (over a row of the caller, or under an unused id), or it
    removes one row of the caller. A handler that raises does nothing. *)
Lemma handler_effect (op : operation) (request : Request) (s : Session) :
  let o := (handler op request s).1 in
  let m' := db (handler op request s).2 in
  m' = db s
  ∨ (∃ r, o = Return r)
    ∧ state_user_id request = PStr (path_user_id op)
    ∧ ((∃ k x', m' = <[k := x']> (db s)
               ∧ Task.user_id x' = path_user_id op
               ∧ (db s !! k = None
                  ∨ ∃ x, db s !! k = Some x
                         ∧ Task.user_id x = path_user_id op))
       ∨ (∃ k x, m' = delete k (db s) ∧ db s !! k = Some x
                 ∧ Task.user_id x = path_user_id op)).
Proof.
  destruct op; cbn [handler path_user_id];
    (destruct (py_eq_str (state_user_id request) user_id) eqn:Hg;
     [apply py_eq_str_true in Hg
     | left; step; by rewrite Hg]).
  - left. destruct (list_tasks_run user_id request filter_status s Hg)
      as (q & _ & _ & ->). reflexivity.
  - right. rewrite (create_task_run _ _ _ _ _ _ Hg). simpl.
    split; [eauto |]. split; [done |]. left. do 2 eexists.
    split; [reflexivity |]. split; [reflexivity |]. left. apply next_id_fresh.
  - destruct (db s !! task_id) as [x |] eqn:E;
      [destruct (decide (Task.user_id x = user_id)) as [Hown | Hown] |].
    + left. by rewrite (get_task_run _ _ _ _ _ Hg E Hown).
    + left. edestruct (lookup_not_found user_id task_id request s
                         (TaskUpdate.mk None None) 0 Hg) as (-> & _).
      { intros y ?. by simplify_eq. } reflexivity.
    + left. edestruct (lookup_not_found user_id task_id request s
                         (TaskUpdate.mk None None) 0 Hg) as (-> & _).
      { intros y ?. by simplify_eq. } reflexivity.
  - destruct (db s !! task_id) as [x |] eqn:E;
      [destruct (decide (Task.user_id x = user_id)) as [Hown | Hown] |].
    + right. rewrite (update_task_run _ _ _ _ _ _ _ Hg E Hown). simpl.
      split; [eauto |]. split; [done |]. left. do 2 eexists.
      split; [reflexivity |]. split; [exact Hown |]. right. eauto.
    + left. edestruct (lookup_not_found user_id task_id request s
                         task_data utcnow Hg) as (_ & -> & _).
      { intros y ?. by simplify_eq. } reflexivity.
    + left. edestruct (lookup_not_found user_id task_id request s
                         task_data utcnow Hg) as (_ & -> & _).
      { intros y ?. by simplify_eq. } reflexivity.
  - destruct (db s !! task_id) as [x |] eqn:E;
      [destruct (decide (Task.user_id x = user_id)) as [Hown | Hown] |].
    + right. rewrite (delete_task_run _ _ _ _ _ Hg E Hown). simpl.
      split; [eauto |]. split; [done |]. right. eauto.
    + left. edestruct (lookup_not_found user_id task_id request s
                         (TaskUpdate.mk None None) 0 Hg) as (_ & _ & -> & _).
      { intros y ?. by simplify_eq. } reflexivity.
    + left. edestruct (lookup_not_found user_id task_id request s
                         (TaskUpdate.mk None None) 0 Hg) as (_ & _ & -> & _).
      { intros y ?. by simplify_eq. } reflexivity.
  - destruct (db s !! task_id) as [x |] eqn:E;
      [destruct (decide (Task.user_id x = user_id)) as [Hown | Hown] |].
    + right.
      rewrite (toggle_task_completion_run _ _ _ _ _ _ Hg E Hown). simpl.
      split; [eauto |]. split; [done |]. left. do 2 eexists.
      split; [reflexivity |]. split; [exact Hown |]. right. eauto.
    + left. edestruct (lookup_not_found user_id task_id request s
                         (TaskUpdate.mk None None) utcnow Hg)
        as (_ & _ & _ & ->).
      { intros y ?. by simplify_eq. } reflexivity.
    + left. edestruct (lookup_not_found user_id task_id request s
                         (TaskUpdate.mk None None) utcnow Hg)
        as (_ & _ & _ & ->).
      { intros y ?. by simplify_eq. } reflexivity.
Qed.

(** ** Creating, reading back, deleting *)

(** X1. [create_task], once the guard has let the caller through, stores
    exactly one new row under an id that was not in use: owner the caller,
    title and description trimmed (an empty description becomes none),
    [completed] false, the two clock readings as timestamps. The response
    shows that row, and every other row stays as it was. *)
Theorem create_task_adds_one_row
    (user_id : str) (task_data : TaskCreate.t) (request : Request)
    (utcnow1 utcnow2 : datetime) (s : Session) :
  state_user_id request = PStr user_id →
  ∃ k s',
    let r := TaskResponse.mk k user_id (strip (TaskCreate.title task_data))
               (created_description (TaskCreate.description task_data))
               false utcnow1 utcnow2 in
    create_task user_id task_data request utcnow1 utcnow2 s
    = (Return (mkApiResponse true (Some (DataTask r)) None), s')
    ∧ db s !! k = None
    ∧ TaskResponse.of_task k <$> db s' !! k = Some r
    ∧ ∀ j, j ≠ k → db s' !! j = db s !! j.
Proof.
  intros Hid. eexists (next_id (db s)), _. cbn zeta.
  split; [by apply create_task_run |].
  split; [apply next_id_fresh |]. simpl.
  split; [by rewrite lookup_insert_eq |].
  intros j Hj. by rewrite lookup_insert_ne.
Qed.

Lemma create_task_adds_one_row_witness :
  ∃ k s',
    let r := TaskResponse.mk k (lit "u1") (lit "Water plants")
               (Some (lit "daily")) false 50 51 in
    create_task (lit "u1") sample_task_data request_u1 50 51 sample_session
    = (Return (mkApiResponse true (Some (DataTask r)) None), s')
    ∧ sample_db !! k = None
    ∧ TaskResponse.of_task k <$> db s' !! k = Some r
    ∧ ∀ j, j ≠ k → db s' !! j = sample_db !! j.
Proof.
  apply (create_task_adds_one_row (lit "u1") sample_task_data request_u1
           50 51 sample_session).
  reflexivity.
Defined.

(** X2. Round trip: the task [create_task] returns is the task [get_task]
    returns for its id right afterwards, field for field. *)
Theorem create_then_get
    (user_id : str) (task_data : TaskCreate.t) (request : Request)
    (utcnow1 utcnow2 : datetime) (s : Session) :
  state_user_id request = PStr user_id →
  ∃ r s',
    create_task user_id task_data request utcnow1 utcnow2 s
    = (Return (mkApiResponse true (Some (DataTask r)) None), s')
    ∧ get_task user_id (TaskResponse.id r) request s'
      = (Return (mkApiResponse true (Some (DataTask r)) None),
         mkSession (db s') (log s' ++ [Get (TaskResponse.id r)])).
Proof.
  intros Hid. do 2 eexists. split; [by apply create_task_run |].
  simpl. erewrite get_task_run; [reflexivity | exact Hid | | reflexivity].
  simpl. apply lookup_insert_eq.
Qed.

Lemma create_then_get_witness :
  ∃ r s',
    create_task (lit "u1") sample_task_data request_u1 50 51 sample_session
    = (Return (mkApiResponse true (Some (DataTask r)) None), s')
    ∧ get_task (lit "u1") (TaskResponse.id r) request_u1 s'
      = (Return (mkApiResponse true (Some (DataTask r)) None),
         mkSession (db s') (log s' ++ [Get (TaskResponse.id r)])).
Proof.
  apply (create_then_get (lit "u1") sample_task_data request_u1 50 51
           sample_session).
  reflexivity.
Defined.

(** X3. A task just created is listed for its owner under every filter that
    admits a task that is not completed ("all", "pending", any unrecognised
    value), and under "completed" it is not. *)
Theorem create_then_list
    (user_id : str) (task_data : TaskCreate.t) (request : Request)
    (utcnow1 utcnow2 : datetime) (filter_status : str) (s : Session) :
  state_user_id request = PStr user_id →
  ∃ r s' tasks s'',
    create_task user_id task_data request utcnow1 utcnow2 s
    = (Return (mkApiResponse true (Some (DataTask r)) None), s')
    ∧ list_tasks user_id request filter_status s'
      = (Return (mkApiResponse true (Some (DataTasks tasks)) None), s'')
    ∧ (r ∈ tasks ↔ filter_status ≠ lit "completed").
Proof.
  intros Hid.
  pose proof (create_task_run user_id task_data request utcnow1 utcnow2 s Hid)
    as Hc. cbn zeta in Hc.
  do 2 eexists.
  edestruct (list_tasks_run user_id request filter_status) as (q & Hw & _ & Hl);
    [exact Hid |].
  do 2 eexists. split; [exact Hc |]. split; [exact Hl |].
  rewrite dumped_elem, Hw. setoid_rewrite list_clauses_matches.
  simpl. split.
  - intros (y & Hy & _ & _ & _ & Hm) ->.
    rewrite lookup_insert_eq in Hy. injection Hy as <-.
    by specialize (Hm eq_refl).
  - intros Hf. eexists. split; [apply lookup_insert_eq |].
    split; [reflexivity |]. split; [reflexivity |]. by split.
Qed.

Lemma create_then_list_witness :
  ∃ r s' tasks s'',
    create_task (lit "u1") sample_task_data request_u1 50 51 sample_session
    = (Return (mkApiResponse true (Some (DataTask r)) None), s')
    ∧ list_tasks (lit "u1") request_u1 (lit "pending") s'
      = (Return (mkApiResponse true (Some (DataTasks tasks)) None), s'')
    ∧ (r ∈ tasks ↔ lit "pending" ≠ lit "completed").
Proof.
  apply (create_then_list (lit "u1") sample_task_data request_u1 50 51
           (lit "pending") sample_session).
  reflexivity.
Defined.

(** X4. [delete_task] on a task the caller owns removes that row and no
    other; afterwards the same id is not found, by [get_task] and by a
    second [delete_task] alike. *)
Theorem delete_task_removes_row
    (user_id : str) (task_id : Z) (request : Request) (s : Session)
    (x : Task.t) :
  state_user_id request = PStr user_id →
  db s !! task_id = Some x →
  Task.user_id x = user_id →
  ∃ s',
    delete_task user_id task_id request s
    = (Return (mkApiResponse true
         (Some (DataMessage "Task deleted successfully")) None), s')
    ∧ db s' !! task_id = None
    ∧ (∀ j, j ≠ task_id → db s' !! j = db s !! j)
    ∧ (get_task user_id task_id request s').1
      = Raise (HTTPException HTTP_404_NOT_FOUND "Task not found")
    ∧ (delete_task user_id task_id request s').1
      = Raise (HTTPException HTTP_404_NOT_FOUND "Task not found").
Proof.
  intros Hid Hx Hown. eexists. split; [by eapply delete_task_run |].
  simpl. split; [apply lookup_delete_eq |].
  split; [intros j Hj; by rewrite lookup_delete_ne |].
  edestruct (lookup_not_found user_id task_id request
               (mkSession (delete task_id (db s))
                  (log s ++ [Get task_id; Delete task_id]))
               (TaskUpdate.mk None None) 0 Hid) as (-> & _ & -> & _);
    [| done].
  simpl. intros y Hy. by rewrite lookup_delete_eq in Hy.
Qed.

Lemma delete_task_removes_row_witness :
  ∃ s',
    delete_task (lit "u1") 2 request_u1 sample_session
    = (Return (mkApiResponse true
         (Some (DataMessage "Task deleted successfully")) None), s')
    ∧ db s' !! 2 = None
    ∧ (∀ j, j ≠ 2 → db s' !! j = sample_db !! j)
    ∧ (get_task (lit "u1") 2 request_u1 s').1
      = Raise (HTTPException HTTP_404_NOT_FOUND "Task not found")
    ∧ (delete_task (lit "u1") 2 request_u1 s').1
      = Raise (HTTPException HTTP_404_NOT_FOUND "Task not found").
Proof.
  apply (delete_task_removes_row (lit "u1") 2 request_u1 sample_session
           sample_task_b).
  - reflexivity.
  - vm_compute. reflexivity.
  - reflexivity.
Defined.

(** ** What the handlers never do *)

(** X5. A handler that raises (403 or 404) leaves the table exactly as it
    found it: no failure applies part of a change. *)
Theorem failure_leaves_table_unchanged
    (op : operation) (request : Request) (s : Session) (e : exn) :
  (handler op request s).1 = Raise e →
  db (handler op request s).2 = db s.
Proof.
  intros He. destruct (handler_effect op request s) as [H | [[r Hr] _]];
    [exact H | congruence].
Qed.

Lemma failure_leaves_table_unchanged_witness :
  db (handler (DeleteTask (lit "u1") 5) request_u1 sample_session).2
  = sample_db.
Proof.
  apply (failure_leaves_table_unchanged (DeleteTask (lit "u1") 5) request_u1
           sample_session
           (HTTPException HTTP_404_NOT_FOUND "Task not found")).
  vm_compute. reflexivity.
Defined.

(** X6. Whatever the operation, its arguments and the caller, a row owned
    by an identity other than the one named in the path is still there,
    unchanged, afterwards. *)
Theorem other_owners_rows_untouched
    (op : operation) (request : Request) (s : Session) (k : Z) (y : Task.t) :
  db s !! k = Some y →
  Task.user_id y ≠ path_user_id op →
  db (handler op request s).2 !! k = Some y.
Proof.
  intros Hy Hown.
  destruct (handler_effect op request s)
    as [-> | (_ & _ & [(j & x' & -> & _ & Hj) | (j & x & -> & Hx & Hx')])];
    [exact Hy | |].
  - rewrite lookup_insert_ne; [exact Hy |].
    intros ->. destruct Hj as [Hj | (x & Hx & Hx')]; congruence.
  - rewrite lookup_delete_ne; [exact Hy |]. intros ->. congruence.
Qed.

Lemma other_owners_rows_untouched_witness :
  db (handler (UpdateTask (lit "u1") 5 (TaskUpdate.mk (Some (lit "mine")) None)
                 70) request_u1 sample_session).2 !! 5
  = Some sample_task_c.
Proof.
  apply (other_owners_rows_untouched
           (UpdateTask (lit "u1") 5 (TaskUpdate.mk (Some (lit "mine")) None)
              70) request_u1 sample_session 5 sample_task_c).
  - vm_compute. reflexivity.
  - vm_compute. discriminate.
Defined.

Lemma get_task_keeps_table
    (user_id : str) (task_id : Z) (request : Request) (s : Session) :
  db (get_task user_id task_id request s).2 = db s.
Proof.
  destruct (py_eq_str (state_user_id request) user_id) eqn:Hg;
    [apply py_eq_str_true in Hg | apply py_eq_str_false in Hg].
  - destruct (db s !! task_id) as [x |] eqn:E;
      [destruct (decide (Task.user_id x = user_id)) as [Hown | Hown] |].
    + by rewrite (get_task_run _ _ _ _ _ Hg E Hown).
    + edestruct (lookup_not_found user_id task_id request s
                   (TaskUpdate.mk None None) 0 Hg) as (-> & _);
        [intros y ?; by simplify_eq | reflexivity].
    + edestruct (lookup_not_found user_id task_id request s
                   (TaskUpdate.mk None None) 0 Hg) as (-> & _);
        [intros y ?; by simplify_eq | reflexivity].
  - destruct (handler_forbidden (GetTask user_id task_id) request s Hg)
      as [d Hd]. simpl in Hd. by rewrite Hd.
Qed.

(** X7. [list_tasks] and [get_task] only read: whatever they answer, the
    table after the call is the table before it. *)
Theorem list_and_get_only_read
    (user_id : str) (task_id : Z) (request : Request) (filter_status : str)
    (s : Session) :
  db (list_tasks user_id request filter_status s).2 = db s
  ∧ db (get_task user_id task_id request s).2 = db s.
Proof.
  split.
  - destruct (handler_effect (ListTasks user_id filter_status) request s)
      as [H | (_ & Hg & _)]; [exact H |].
    by destruct (list_tasks_run user_id request filter_status s Hg)
      as (q & _ & _ & ->).
  - apply get_task_keeps_table.
Qed.

(** X8. A handler returns a response only to the identity named in the
    path, and every task the response shows belongs to that identity. *)
Theorem success_shows_only_own_tasks
    (op : operation) (request : Request) (s : Session) (r : ApiResponse) :
  (handler op request s).1 = Return r →
  state_user_id request = PStr (path_user_id op)
  ∧ Forall (λ t, TaskResponse.user_id t = path_user_id op) (shown_tasks r).
Proof.
  intros Hr.
  assert (Hg : state_user_id request = PStr (path_user_id op)).
  { destruct (py_eq_str (state_user_id request) (path_user_id op)) eqn:H;
      [by apply py_eq_str_true |]. apply py_eq_str_false in H.
    destruct (handler_forbidden op request s H) as [d Hd].
    rewrite Hd in Hr. discriminate. }
  split; [exact Hg |].
  destruct op; cbn [handler path_user_id] in *.
  - destruct (list_tasks_run user_id request filter_status s Hg)
      as (q & Hw & _ & Hl).
    rewrite Hl in Hr. injection Hr as <-. simpl.
    apply Forall_forall. intros t Ht. apply dumped_elem in Ht.
    destruct Ht as (y & _ & -> & Hc). rewrite Hw in Hc.
    simpl in Hc. apply andb_prop in Hc as [Hc _].
    by apply bool_decide_eq_true in Hc.
  - rewrite (create_task_run _ _ _ _ _ _ Hg) in Hr. injection Hr as <-.
    simpl. by constructor.
  - destruct (db s !! task_id) as [x |] eqn:E;
      [destruct (decide (Task.user_id x = user_id)) as [Hown | Hown] |].
    + rewrite (get_task_run _ _ _ _ _ Hg E Hown) in Hr. injection Hr as <-.
      simpl. by constructor.
    + edestruct (lookup_not_found user_id task_id request s
                   (TaskUpdate.mk None None) 0 Hg) as (H & _);
        [intros y ?; by simplify_eq | rewrite H in Hr; discriminate].
    + edestruct (lookup_not_found user_id task_id request s
                   (TaskUpdate.mk None None) 0 Hg) as (H & _);
        [intros y ?; by simplify_eq | rewrite H in Hr; discriminate].
  - destruct (db s !! task_id) as [x |] eqn:E;
      [destruct (decide (Task.user_id x = user_id)) as [Hown | Hown] |].
    + rewrite (update_task_run _ _ _ _ _ _ _ Hg E Hown) in Hr.
      injection Hr as <-. simpl. by constructor.
    + edestruct (lookup_not_found user_id task_id request s
                   task_data utcnow Hg) as (_ & H & _);
        [intros y ?; by simplify_eq | rewrite H in Hr; discriminate].
    + edestruct (lookup_not_found user_id task_id request s
                   task_data utcnow Hg) as (_ & H & _);
        [intros y ?; by simplify_eq | rewrite H in Hr; discriminate].
  - destruct (db s !! task_id) as [x |] eqn:E;
      [destruct (decide (Task.user_id x = user_id)) as [Hown | Hown] |].
    + rewrite (delete_task_run _ _ _ _ _ Hg E Hown) in Hr.
      injection Hr as <-. simpl. constructor.
    + edestruct (lookup_not_found user_id task_id request s
                   (TaskUpdate.mk None None) 0 Hg) as (_ & _ & H & _);
        [intros y ?; by simplify_eq | rewrite H in Hr; discriminate].
    + edestruct (lookup_not_found user_id task_id request s
                   (TaskUpdate.mk None None) 0 Hg) as (_ & _ & H & _);
        [intros y ?; by simplify_eq | rewrite H in Hr; discriminate].
  - destruct (db s !! task_id) as [x |] eqn:E;
      [destruct (decide (Task.user_id x = user_id)) as [Hown | Hown] |].
    + rewrite (toggle_task_completion_run _ _ _ _ _ _ Hg E Hown) in Hr.
      injection Hr as <-. simpl. by constructor.
    + edestruct (lookup_not_found user_id task_id request s
                   (TaskUpdate.mk None None) utcnow Hg) as (_ & _ & _ & H);
        [intros y ?; by simplify_eq | rewrite H in Hr; discriminate].
    + edestruct (lookup_not_found user_id task_id request s
                   (TaskUpdate.mk None None) utcnow Hg) as (_ & _ & _ & H);
        [intros y ?; by simplify_eq | rewrite H in Hr; discriminate].
Qed.

Lemma success_shows_only_own_tasks_witness :
  state_user_id request_u1 = PStr (lit "u1")
  ∧ Forall (λ t, TaskResponse.user_id t = lit "u1")
      (shown_tasks (mkApiResponse true
         (Some (DataTask (TaskResponse.of_task 2 sample_task_b))) None)).
Proof.
  apply (success_shows_only_own_tasks (GetTask (lit "u1") 2) request_u1
           sample_session).
  vm_compute. reflexivity.
Defined.

(** ** Invariants of the stored text *)

(** Where a row found after a handler comes from: it was there before, or
    it is the row [create_task], [update_task] or [toggle_task_completion]
    wrote, with the text fields shown. *)
Lemma handler_rows
    (op : operation) (request : Request) (s : Session) (k : Z) (y' : Task.t) :
  db (handler op request s).2 !! k = Some y' →
  db s !! k = Some y'
  ∨ (∃ u task_data t1 t2,
       op = CreateTask u task_data t1 t2
       ∧ Task.title y' = strip (TaskCreate.title task_data)
       ∧ Task.description y'
         = created_description (TaskCreate.description task_data))
  ∨ (∃ u task_data t x,
       op = UpdateTask u k task_data t ∧ db s !! k = Some x
       ∧ Task.title y'
         = from_option strip (Task.title x) (TaskUpdate.title task_data)
       ∧ Task.description y'
         = from_option (λ v, Some (strip v)) (Task.description x)
             (TaskUpdate.description task_data))
  ∨ (∃ u t x,
       op = ToggleTaskCompletion u k t ∧ db s !! k = Some x
       ∧ Task.title y' = Task.title x
       ∧ Task.description y' = Task.description x).
Proof.
  intros Hy'.
  destruct (py_eq_str (state_user_id request) (path_user_id op)) eqn:Hg;
    [apply py_eq_str_true in Hg | apply py_eq_str_false in Hg]; cycle 1.
  { destruct (handler_forbidden op request s Hg) as [d Hd].
    rewrite Hd in Hy'. by left. }
  destruct op; cbn [handler path_user_id] in *.
  - destruct (list_tasks_run user_id request filter_status s Hg)
      as (q & _ & _ & Hl). rewrite Hl in Hy'. by left.
  - rewrite (create_task_run _ _ _ _ _ _ Hg) in Hy'. simpl in Hy'.
    apply lookup_insert_Some in Hy' as [[_ <-] | [_ Hy']]; [| by left].
    right. left. by eauto 10.
  - pose proof (get_task_keeps_table user_id task_id request s) as H.
    rewrite H in Hy'. by left.
  - destruct (db s !! task_id) as [x |] eqn:E;
      [destruct (decide (Task.user_id x = user_id)) as [Hown | Hown] |].
    + rewrite (update_task_run _ _ _ _ _ _ _ Hg E Hown) in Hy'. simpl in Hy'.
      apply lookup_insert_Some in Hy' as [[<- <-] | [_ Hy']]; [| by left].
      right. right. left. by eauto 10.
    + edestruct (lookup_not_found user_id task_id request s
                   task_data utcnow Hg) as (_ & H & _);
        [intros y ?; by simplify_eq | rewrite H in Hy'; by left].
    + edestruct (lookup_not_found user_id task_id request s
                   task_data utcnow Hg) as (_ & H & _);
        [intros y ?; by simplify_eq | rewrite H in Hy'; by left].
  - destruct (db s !! task_id) as [x |] eqn:E;
      [destruct (decide (Task.user_id x = user_id)) as [Hown | Hown] |].
    + rewrite (delete_task_run _ _ _ _ _ Hg E Hown) in Hy'. simpl in Hy'.
      apply lookup_delete_Some in Hy' as [_ Hy']. by left.
    + edestruct (lookup_not_found user_id task_id request s
                   (TaskUpdate.mk None None) 0 Hg) as (_ & _ & H & _);
        [intros y ?; by simplify_eq | rewrite H in Hy'; by left].
    + edestruct (lookup_not_found user_id task_id request s
                   (TaskUpdate.mk None None) 0 Hg) as (_ & _ & H & _);
        [intros y ?; by simplify_eq | rewrite H in Hy'; by left].
  - destruct (db s !! task_id) as [x |] eqn:E;
      [destruct (decide (Task.user_id x = user_id)) as [Hown | Hown] |].
    + rewrite (toggle_task_completion_run _ _ _ _ _ _ Hg E Hown) in Hy'.
      simpl in Hy'.
      apply lookup_insert_Some in Hy' as [[<- <-] | [_ Hy']]; [| by left].
      right. right. right. by eauto 10.
    + edestruct (lookup_not_found user_id task_id request s
                   (TaskUpdate.mk None None) utcnow Hg) as (_ & _ & _ & H);
        [intros y ?; by simplify_eq | rewrite H in Hy'; by left].
    + edestruct (lookup_not_found user_id task_id request s
                   (TaskUpdate.mk None None) utcnow Hg) as (_ & _ & _ & H);
        [intros y ?; by simplify_eq | rewrite H in Hy'; by left].
Qed.

Lemma created_description_bound (d : option str) (v : str) :
  match d with Some w => (length w ≤ 1000)%nat | None => True end →
  created_description d = Some v → (length v ≤ 1000)%nat.
Proof.
  destruct d as [w |]; simpl; [| discriminate].
  case_bool_decide; [discriminate |]. intros Hw [= <-].
  pose proof (strip_length w). lia.
Qed.

(** X9. The length limits of the schemas are an invariant of the table: if
    every stored title has at most 200 characters and every stored
    description at most 1000, and the body of the operation passes its
    schema, the same holds after the operation. *)
Theorem length_limits_preserved
    (op : operation) (request : Request) (s : Session) :
  valid_body op = true →
  (∀ k y, db s !! k = Some y → within_bounds y) →
  ∀ k y, db (handler op request s).2 !! k = Some y → within_bounds y.
Proof.
  intros Hv Hinv k y' Hy'.
  destruct (handler_rows op request s k y' Hy')
    as [H | [(u & td & t1 & t2 & -> & Ht & Hd)
          | [(u & td & t & x & -> & Hx & Ht & Hd)
            | (u & t & x & -> & Hx & Ht & Hd)]]].
  - by eapply Hinv.
  - simpl in Hv. unfold TaskCreate.valid in Hv.
    apply andb_prop in Hv as [Hv Hvd]. apply andb_prop in Hv as [_ Hv].
    apply Nat.leb_le in Hv. split.
    + rewrite Ht. pose proof (strip_length (TaskCreate.title td)). lia.
    + intros d. rewrite Hd. apply created_description_bound.
      destruct (TaskCreate.description td); [by apply Nat.leb_le | done].
  - simpl in Hv. unfold TaskUpdate.valid in Hv.
    apply andb_prop in Hv as [Hvt Hvd].
    destruct (Hinv k x Hx) as [Hxt Hxd]. split.
    + rewrite Ht. destruct (TaskUpdate.title td) as [v |]; simpl; [| exact Hxt].
      apply andb_prop in Hvt as [_ Hvt]. apply Nat.leb_le in Hvt.
      pose proof (strip_length v). lia.
    + intros d. rewrite Hd.
      destruct (TaskUpdate.description td) as [v |]; simpl; [| apply Hxd].
      intros [= <-]. apply Nat.leb_le in Hvd.
      pose proof (strip_length v). lia.
  - destruct (Hinv k x Hx) as [Hxt Hxd]. split.
    + by rewrite Ht.
    + intros d. rewrite Hd. apply Hxd.
Qed.

Lemma length_limits_preserved_witness :
  within_bounds
    (Task.mk (Some 6) (lit "u1") (lit "Water plants") (Some (lit "daily"))
       false 50 51).
Proof.
  apply (length_limits_preserved (CreateTask (lit "u1") sample_task_data 50 51)
           request_u1 sample_session) with (k := 6).
  - vm_compute. reflexivity.
  - intros k y Hy. change (db sample_session) with sample_db in Hy.
    unfold sample_db in Hy.
    repeat (apply lookup_insert_Some in Hy as [[_ <-] | [_ Hy]];
            [split; [vm_compute; lia | intros d [= <-] || intros d [=]];
             vm_compute; lia |]).
    by rewrite lookup_empty in Hy.
  - vm_compute. reflexivity.
Defined.

(** X10. Trimmed text is an invariant of the table: if no stored title or
    description begins or ends with whitespace, none does after any
    operation, whatever its body. *)
Theorem trimmed_text_preserved
    (op : operation) (request : Request) (s : Session) :
  (∀ k y, db s !! k = Some y → tidy y) →
  ∀ k y, db (handler op request s).2 !! k = Some y → tidy y.
Proof.
  intros Hinv k y' Hy'.
  destruct (handler_rows op request s k y' Hy')
    as [H | [(u & td & t1 & t2 & -> & Ht & Hd)
          | [(u & td & t & x & -> & Hx & Ht & Hd)
            | (u & t & x & -> & Hx & Ht & Hd)]]].
  - by eapply Hinv.
  - split.
    + rewrite Ht. apply strip_trimmed.
    + intros d. rewrite Hd. unfold created_description.
      destruct (TaskCreate.description td) as [v |]; [| discriminate].
      case_bool_decide; [discriminate |]. intros [= <-]. apply strip_trimmed.
  - destruct (Hinv k x Hx) as [Hxt Hxd]. split.
    + rewrite Ht. destruct (TaskUpdate.title td); simpl;
        [apply strip_trimmed | exact Hxt].
    + intros d. rewrite Hd.
      destruct (TaskUpdate.description td); simpl; [| apply Hxd].
      intros [= <-]. apply strip_trimmed.
  - destruct (Hinv k x Hx) as [Hxt Hxd]. split.
    + by rewrite Ht.
    + intros d. rewrite Hd. apply Hxd.
Qed.

Lemma trimmed_text_preserved_witness :
  tidy
    (Task.mk (Some 1) (lit "u1") (lit "Water plants") (Some (lit "daily"))
       false 50 51).
Proof.
  apply (trimmed_text_preserved (CreateTask (lit "u1") sample_task_data 50 51)
           request_u1 (mkSession ∅ [])) with (k := 1).
  - intros k y Hy. simpl in Hy. by rewrite lookup_empty in Hy.
  - vm_compute. reflexivity.
Defined.

(** ** Updating and toggling, continued *)

(** X11. Repeating an update changes nothing but the time: sending the same
    body a second time gives the response, and leaves the table, that a
    single call at the second clock reading would have. *)
Theorem update_task_repeated
    (user_id : str) (task_id : Z) (task_data : TaskUpdate.t)
    (request : Request) (utcnow1 utcnow2 : datetime) (s : Session)
    (x : Task.t) :
  state_user_id request = PStr user_id →
  db s !! task_id = Some x →
  Task.user_id x = user_id →
  let first := update_task user_id task_id task_data request utcnow1 s in
  let second := update_task user_id task_id task_data request utcnow2 first.2 in
  let once := update_task user_id task_id task_data request utcnow2 s in
  second.1 = once.1 ∧ db second.2 = db once.2.
Proof.
  intros Hid Hx Hown. cbn zeta.
  rewrite (update_task_run _ _ task_data _ utcnow1 _ _ Hid Hx Hown).
  rewrite (update_task_run _ _ task_data _ utcnow2 _ _ Hid Hx Hown).
  cbn [snd].
  erewrite (update_task_run _ _ task_data _ utcnow2);
    [| exact Hid | apply lookup_insert_eq | exact Hown].
  cbn [fst snd db Task.title Task.description Task.user_id Task.completed
       Task.created_at].
  assert (Ht : from_option strip
                 (from_option strip (Task.title x) (TaskUpdate.title task_data))
                 (TaskUpdate.title task_data)
               = from_option strip (Task.title x) (TaskUpdate.title task_data))
    by (by destruct (TaskUpdate.title task_data)).
  assert (Hd : from_option (λ v, Some (strip v))
                 (from_option (λ v, Some (strip v)) (Task.description x)
                    (TaskUpdate.description task_data))
                 (TaskUpdate.description task_data)
               = from_option (λ v, Some (strip v)) (Task.description x)
                   (TaskUpdate.description task_data))
    by (by destruct (TaskUpdate.description task_data)).
  rewrite Ht, Hd. split; [reflexivity |]. apply insert_insert_eq.
Qed.

Lemma update_task_repeated_witness :
  let body := TaskUpdate.mk (Some (lit " Call mum ")) None in
  let first := update_task (lit "u1") 2 body request_u1 70 sample_session in
  let second := update_task (lit "u1") 2 body request_u1 80 first.2 in
  let once := update_task (lit "u1") 2 body request_u1 80 sample_session in
  second.1 = once.1 ∧ db second.2 = db once.2.
Proof.
  apply (update_task_repeated (lit "u1") 2
           (TaskUpdate.mk (Some (lit " Call mum ")) None) request_u1 70 80
           sample_session sample_task_b).
  - reflexivity.
  - vm_compute. reflexivity.
  - reflexivity.
Defined.

(** X12. Writing a task back as it was read: when the stored title and
    description of an owned task carry no whitespace at either end, an
    update whose body repeats them stores the same text again; only
    [updated_at] moves. *)
Theorem update_task_with_own_text
    (user_id : str) (task_id : Z) (request : Request) (utcnow : datetime)
    (s : Session) (x : Task.t) :
  state_user_id request = PStr user_id →
  db s !! task_id = Some x →
  Task.user_id x = user_id →
  tidy x →
  let body := TaskUpdate.mk (Some (Task.title x)) (Task.description x) in
  update_task user_id task_id body request utcnow s
  = (Return (mkApiResponse true
       (Some (DataTask (TaskResponse.of_task task_id
                          (Task.set_updated_at utcnow x)))) None),
     mkSession (<[task_id := Task.set_updated_at utcnow (Task.set_id task_id x)]>
                  (db s))
       (log s ++ [Get task_id; Flush task_id; Refresh task_id])).
Proof.
  intros Hid Hx Hown [Ht Hd]. cbn zeta.
  rewrite (update_task_run _ _ _ _ utcnow _ _ Hid Hx Hown). simpl.
  rewrite (strip_fixed _ Ht).
  destruct (Task.description x) as [d |] eqn:E; simpl.
  - rewrite (strip_fixed d (Hd d eq_refl)).
    unfold TaskResponse.of_task, Task.set_updated_at, Task.set_id. simpl.
    by rewrite E.
  - unfold TaskResponse.of_task, Task.set_updated_at, Task.set_id. simpl.
    by rewrite E.
Qed.

Lemma update_task_with_own_text_witness :
  update_task (lit "u1") 2
    (TaskUpdate.mk (Some (lit "Call home")) (Some (lit "soon")))
    request_u1 70 sample_session
  = (Return (mkApiResponse true
       (Some (DataTask (TaskResponse.of_task 2
                          (Task.set_updated_at 70 sample_task_b)))) None),
     mkSession (<[2 := Task.set_updated_at 70 (Task.set_id 2 sample_task_b)]>
                  sample_db)
       [Get 2; Flush 2; Refresh 2]).
Proof.
  apply (update_task_with_own_text (lit "u1") 2 request_u1 70 sample_session
           sample_task_b).
  - reflexivity.
  - vm_compute. reflexivity.
  - reflexivity.
  - split; [split | intros d [= <-]; split]; intros c [= <-];
      vm_compute; reflexivity.
Defined.

(** X13. A stored title is empty exactly when the supplied one was made of
    whitespace only: for a body that passes the schema, [create_task]
    stores a title of at most 200 characters, and that title is empty if and
    only if every character of the supplied title is whitespace. *)
Theorem created_title_empty_iff_blank
    (user_id : str) (task_data : TaskCreate.t) (request : Request)
    (utcnow1 utcnow2 : datetime) (s : Session) :
  state_user_id request = PStr user_id →
  TaskCreate.valid task_data = true →
  ∃ r s',
    create_task user_id task_data request utcnow1 utcnow2 s
    = (Return (mkApiResponse true (Some (DataTask r)) None), s')
    ∧ (length (TaskResponse.title r) ≤ 200)%nat
    ∧ (TaskResponse.title r = []
       ↔ forallb isspace (TaskCreate.title task_data) = true).
Proof.
  intros Hid Hv. do 2 eexists. split; [by apply create_task_run |].
  simpl. split; [by apply created_title_at_most_200 | apply strip_nil_iff].
Qed.

Lemma created_title_empty_iff_blank_witness :
  ∃ r s',
    create_task (lit "u1") sample_task_data request_u1 50 51 sample_session
    = (Return (mkApiResponse true (Some (DataTask r)) None), s')
    ∧ (length (TaskResponse.title r) ≤ 200)%nat
    ∧ (TaskResponse.title r = []
       ↔ forallb isspace (TaskCreate.title sample_task_data) = true).
Proof.
  apply (created_title_empty_iff_blank (lit "u1") sample_task_data request_u1
           50 51 sample_session).
  - reflexivity.
  - vm_compute. reflexivity.
Defined.

(** X14. [toggle_task_completion] on an owned task touches nothing but
    [completed] and [updated_at]: id, owner, title, description and
    [created_at] are shown as stored, and every other row stays as it was. *)
Theorem toggle_keeps_the_rest
    (user_id : str) (task_id : Z) (request : Request) (utcnow : datetime)
    (s : Session) (x : Task.t) :
  state_user_id request = PStr user_id →
  db s !! task_id = Some x →
  Task.user_id x = user_id →
  ∃ r s',
    toggle_task_completion user_id task_id request utcnow s
    = (Return (mkApiResponse true (Some (DataTask r)) None), s')
    ∧ TaskResponse.id r = task_id
    ∧ TaskResponse.user_id r = Task.user_id x
    ∧ TaskResponse.title r = Task.title x
    ∧ TaskResponse.description r = Task.description x
    ∧ TaskResponse.created_at r = Task.created_at x
    ∧ TaskResponse.of_task task_id <$> db s' !! task_id = Some r
    ∧ ∀ j, j ≠ task_id → db s' !! j = db s !! j.
Proof.
  intros Hid Hx Hown. do 2 eexists.
  split; [by apply toggle_task_completion_run |]. simpl.
  rewrite lookup_insert_eq. repeat split; try reflexivity.
  intros j Hj. by rewrite lookup_insert_ne.
Qed.

Lemma toggle_keeps_the_rest_witness :
  ∃ r s',
    toggle_task_completion (lit "u1") 2 request_u1 70 sample_session
    = (Return (mkApiResponse true (Some (DataTask r)) None), s')
    ∧ TaskResponse.id r = 2
    ∧ TaskResponse.user_id r = lit "u1"
    ∧ TaskResponse.title r = lit "Call home"
    ∧ TaskResponse.description r = Some (lit "soon")
    ∧ TaskResponse.created_at r = 30
    ∧ TaskResponse.of_task 2 <$> db s' !! 2 = Some r
    ∧ ∀ j, j ≠ 2 → db s' !! j = sample_db !! j.
Proof.
  apply (toggle_keeps_the_rest (lit "u1") 2 request_u1 70 sample_session
           sample_task_b).
  - reflexivity.
  - vm_compute. reflexivity.
  - reflexivity.
Defined.

(** ** The Authorization header *)

Lemma split_from_word (w cur rest : str) :
  forallb (λ c, negb (isspace c)) w = true →
  split_from cur (w ++ rest) = split_from (reverse w ++ cur) rest.
Proof.
  revert cur. induction w as [| c w IH]; intros cur H; [reflexivity |].
  simpl in H. apply andb_prop in H as [Hc H].
  apply negb_true_iff in Hc. simpl. rewrite Hc, IH by exact H.
  by rewrite reverse_cons, <- app_assoc.
Qed.

Lemma split_from_spaces (ws rest : str) :
  forallb isspace ws = true →
  split_from [] (ws ++ rest) = split_from [] rest.
Proof.
  induction ws as [| c ws IH]; intros H; [reflexivity |].
  simpl in H. apply andb_prop in H as [Hc H]. simpl. rewrite Hc. by apply IH.
Qed.

Lemma split_from_end (w ws : str) :
  w ≠ [] → forallb isspace ws = true →
  split_from (reverse w) ws = [w].
Proof.
  intros Hw Hws.
  assert (Hr : reverse w ≠ []).
  { intros H. apply Hw. apply (f_equal reverse) in H.
    by rewrite reverse_involutive in H. }
  destruct ws as [| c ws]; simpl.
  - destruct (reverse w) eqn:E; [done |]. by rewrite <- E, reverse_involutive.
  - simpl in Hws. apply andb_prop in Hws as [-> Hws].
    destruct (reverse w) eqn:E; [done |]. rewrite <- E, reverse_involutive.
    rewrite <- (app_nil_r ws), split_from_spaces by exact Hws. reflexivity.
Qed.

(** Two words, with whitespace around and between them, split into the two
    words. *)
Lemma split_two_words (ws1 a ws2 b ws3 : str) :
  a ≠ [] → b ≠ [] → ws2 ≠ [] →
  forallb (λ c, negb (isspace c)) a = true →
  forallb (λ c, negb (isspace c)) b = true →
  forallb isspace ws1 = true → forallb isspace ws2 = true →
  forallb isspace ws3 = true →
  split (ws1 ++ a ++ ws2 ++ b ++ ws3) = [a; b].
Proof.
  intros Ha Hb Hws2 Hna Hnb H1 H2 H3. unfold split.
  rewrite split_from_spaces by exact H1.
  rewrite split_from_word by exact Hna. rewrite app_nil_r.
  destruct ws2 as [| c ws2]; [done |].
  simpl in H2. apply andb_prop in H2 as [Hc H2]. simpl. rewrite Hc.
  assert (Hr : reverse a ≠ []).
  { intros H. apply Ha. apply (f_equal reverse) in H.
    by rewrite reverse_involutive in H. }
  destruct (reverse a) eqn:E; [done |]. rewrite <- E, reverse_involutive.
  f_equal. rewrite split_from_spaces by exact H2.
  rewrite split_from_word by exact Hnb. rewrite app_nil_r.
  by apply split_from_end.
Qed.

Lemma isspace_lower_char (c : N) : isspace c = true → lower_char c = c.
Proof.
  unfold lower_char, isspace. intros H.
  destruct (N.leb_spec 0x41 c), (N.leb_spec c 0x5A); simpl; try reflexivity.
  exfalso.
  repeat (rewrite ?orb_true_iff, ?andb_true_iff, ?N.leb_le, ?N.eqb_eq in H).
  lia.
Qed.

(** A word that lowers to "bearer" is not empty and holds no whitespace. *)
Lemma bearer_is_a_word (scheme : str) :
  lower scheme = lit "bearer" →
  scheme ≠ [] ∧ forallb (λ c, negb (isspace c)) scheme = true.
Proof.
  intros H. split; [by intros -> |].
  apply forallb_forall. intros c Hc. apply negb_true_iff.
  destruct (isspace c) eqn:Hs; [| reflexivity]. exfalso.
  apply list_elem_of_In in Hc.
  assert (Hin : lower_char c ∈ lit "bearer").
  { rewrite <- H. unfold lower. by apply list_elem_of_fmap_2. }
  rewrite (isspace_lower_char c Hs) in Hin.
  assert (Hall : Forall (λ a, isspace a = false) (lit "bearer"))
    by (vm_compute; repeat constructor).
  rewrite Forall_forall in Hall. specialize (Hall c Hin). congruence.
Qed.

(** X15. The middleware reads the header leniently: a scheme that is
    "bearer" in any letter case, then a token without whitespace, with any
    whitespace before, between (at least one character) and after them, is
    taken apart into scheme and token. The outcome is then decided by
    [verify_jwt] on that token alone: with a non-empty payload the request
    goes on with [state.user_id] and [state.user_email] taken from the
    payload's "sub" and "email" (whatever was there before), otherwise 401
    "Invalid or expired token". *)
Theorem middleware_accepts_bearer_header
    (jwt_decode : str → str → list str → datetime → decode_result)
    (SECRET_KEY : str) (utcoffset : Z → Z)
    (ws1 scheme ws2 token ws3 : str) (old_id old_email : pyval)
    (utcnow : datetime) :
  lower scheme = lit "bearer" →
  token ≠ [] →
  forallb (λ c, negb (isspace c)) token = true →
  ws2 ≠ [] →
  forallb isspace ws1 = true → forallb isspace ws2 = true →
  forallb isspace ws3 = true →
  let header := ws1 ++ scheme ++ ws2 ++ token ++ ws3 in
  verify_jwt_middleware jwt_decode SECRET_KEY utcoffset
    (mkRequest (Some header) old_id old_email) utcnow
  = match verify_jwt jwt_decode SECRET_KEY utcoffset token utcnow with
    | Some payload =>
        if bool_decide (payload = ∅)
        then Raise (HTTPException HTTP_401_UNAUTHORIZED
               "Invalid or expired token")
        else Return (mkRequest (Some header)
                       (dict_get payload (lit "sub"))
                       (dict_get payload (lit "email")))
    | None =>
        Raise (HTTPException HTTP_401_UNAUTHORIZED "Invalid or expired token")
    end.
Proof.
  intros Hs Ht Hnt Hws2 H1 H2 H3 header.
  destruct (bearer_is_a_word scheme Hs) as [Hsn Hsw].
  unfold verify_jwt_middleware. cbn [authorization].
  assert (Hh : truthy (PStr header) = true).
  { simpl. apply negb_true_iff, bool_decide_eq_false. subst header.
    intros H. apply app_eq_nil in H as [_ H]. by apply app_eq_nil in H as [H _]. }
  rewrite Hh. cbn [negb].
  subst header. rewrite (split_two_words ws1 scheme ws2 token ws3) by done.
  rewrite bool_decide_eq_true_2 by exact Hs. reflexivity.
Qed.

Lemma middleware_accepts_bearer_header_witness :
  verify_jwt_middleware sample_decode (lit "secret") utc
    (mkRequest (Some (lit " BEARER   tok-u1 ")) (PStr (lit "u2")) PNone)
    1700000000000000
  = Return (mkRequest (Some (lit " BEARER   tok-u1 "))
              (PStr (lit "u1")) (PStr (lit "u1@example.org"))).
Proof.
  apply (middleware_accepts_bearer_header sample_decode (lit "secret") utc
           (lit " ") (lit "BEARER") (lit "   ") (lit "tok-u1") (lit " ")
           (PStr (lit "u2")) PNone 1700000000000000);
    vm_compute; (reflexivity || discriminate).
Defined.

(** X16. A request is let through only on these grounds: its header splits
    into exactly a scheme that lowers to "bearer" and a token; [verify_jwt]
    returns a non-empty payload for the token; and the identity attached to
    the request is the one [get_user_id_from_token] gives for that token
    (the payload's "sub"), the email the payload's "email". *)
Theorem middleware_lets_through_only_verified
    (jwt_decode : str → str → list str → datetime → decode_result)
    (SECRET_KEY : str) (utcoffset : Z → Z)
    (request request' : Request) (utcnow : datetime) :
  verify_jwt_middleware jwt_decode SECRET_KEY utcoffset request utcnow
  = Return request' →
  ∃ header scheme token payload,
    authorization request = Some header
    ∧ split header = [scheme; token]
    ∧ lower scheme = lit "bearer"
    ∧ verify_jwt jwt_decode SECRET_KEY utcoffset token utcnow = Some payload
    ∧ payload ≠ ∅
    ∧ state_user_id request'
      = get_user_id_from_token jwt_decode SECRET_KEY utcoffset token utcnow
    ∧ state_user_id request' = dict_get payload (lit "sub")
    ∧ state_user_email request' = dict_get payload (lit "email")
    ∧ authorization request' = authorization request.
Proof.
  unfold verify_jwt_middleware. intros H.
  destruct (authorization request) as [header |]; [| discriminate].
  destruct (negb (truthy (PStr header))); [discriminate |].
  destruct (split header) as [| scheme [| token [| ? ?]]] eqn:Hsp;
    try discriminate.
  destruct (decide (lower scheme = lit "bearer")) as [Hs | Hs];
    [rewrite (bool_decide_eq_true_2 _ Hs) in H
    | rewrite (bool_decide_eq_false_2 _ Hs) in H; discriminate].
  cbn [negb] in H.
  destruct (verify_jwt jwt_decode SECRET_KEY utcoffset token utcnow)
    as [payload |] eqn:Hv; [| discriminate].
  destruct (decide (payload = ∅)) as [Hp | Hp];
    [rewrite (bool_decide_eq_true_2 _ Hp) in H; discriminate
    | rewrite (bool_decide_eq_false_2 _ Hp) in H].
  injection H as <-.
  exists header, scheme, token, payload.
  unfold get_user_id_from_token. rewrite Hv, (bool_decide_eq_false_2 _ Hp).
  by repeat split.
Qed.

Lemma middleware_lets_through_only_verified_witness :
  ∃ header scheme token payload,
    authorization request_bearer_u1 = Some header
    ∧ split header = [scheme; token]
    ∧ lower scheme = lit "bearer"
    ∧ verify_jwt sample_decode (lit "secret") utc token 1700000000000000
      = Some payload
    ∧ payload ≠ ∅
    ∧ PStr (lit "u1")
      = get_user_id_from_token sample_decode (lit "secret") utc token
          1700000000000000
    ∧ PStr (lit "u1") = dict_get payload (lit "sub")
    ∧ PStr (lit "u1@example.org") = dict_get payload (lit "email")
    ∧ Some (lit "Bearer tok-u1") = authorization request_bearer_u1.
Proof.
  apply (middleware_lets_through_only_verified sample_decode (lit "secret")
           utc request_bearer_u1
           (mkRequest (Some (lit "Bearer tok-u1")) (PStr (lit "u1"))
              (PStr (lit "u1@example.org"))) 1700000000000000).
  vm_compute. reflexivity.
Defined.

(** X17. An operation answered with 401 never reached its handler: the
    session comes back untouched, no statement sent and no row changed.
    (Handlers themselves never raise 401.) *)
Theorem unauthorized_never_reaches_the_store
    (jwt_decode : str → str → list str → datetime → decode_result)
    (SECRET_KEY : str) (utcoffset : Z → Z)
    (op : operation) (request : Request) (utcnow : datetime) (s : Session)
    (detail : string) :
  (endpoint jwt_decode SECRET_KEY utcoffset op request utcnow s).1
  = Raise (HTTPException HTTP_401_UNAUTHORIZED detail) →
  (endpoint jwt_decode SECRET_KEY utcoffset op request utcnow s).2 = s.
Proof.
  unfold endpoint.
  destruct (verify_jwt_middleware jwt_decode SECRET_KEY utcoffset request
              utcnow) as [request' | e]; [| reflexivity].
  intros H. pose proof (handler_outcome op request' s) as Ho.
  rewrite H in Ho. destruct Ho as [d [Hd | Hd]]; discriminate.
Qed.

Lemma unauthorized_never_reaches_the_store_witness :
  (endpoint sample_decode (lit "secret") utc (DeleteTask (lit "u1") 1)
     (mkRequest (Some (lit "Bearer forged")) PNone PNone) 0 sample_session).2
  = sample_session.
Proof.
  apply (unauthorized_never_reaches_the_store sample_decode (lit "secret") utc
           (DeleteTask (lit "u1") 1)
           (mkRequest (Some (lit "Bearer forged")) PNone PNone) 0
           sample_session "Invalid or expired token").
  vm_compute. reflexivity.
Defined.

(** ** The token verifier, continued *)

(** X18. Expiry is final: when the library decodes a token to the same
    payload at two instants and [verify_jwt] rejects it at the earlier one,
    it rejects it at the later one too. *)
Theorem verify_jwt_rejection_is_final
    (jwt_decode : str → str → list str → datetime → decode_result)
    (SECRET_KEY : str) (utcoffset : Z → Z)
    (token : str) (utcnow1 utcnow2 : datetime) (payload : dict) :
  utcnow1 ≤ utcnow2 →
  jwt_decode token SECRET_KEY [lit "HS256"] utcnow1 = Decoded payload →
  jwt_decode token SECRET_KEY [lit "HS256"] utcnow2 = Decoded payload →
  verify_jwt jwt_decode SECRET_KEY utcoffset token utcnow1 = None →
  verify_jwt jwt_decode SECRET_KEY utcoffset token utcnow2 = None.
Proof.
  intros Hle Hd1 Hd2 Hv1.
  destruct (verify_jwt jwt_decode SECRET_KEY utcoffset token utcnow2)
    as [p |] eqn:Hv2; [| reflexivity]. exfalso.
  apply verify_jwt_cases in Hv2 as [Hd2' Hc].
  assert (p = payload) as -> by congruence.
  assert (Hv1' : verify_jwt jwt_decode SECRET_KEY utcoffset token utcnow1
                 = Some payload).
  { apply verify_jwt_cases. split; [exact Hd1 |].
    destruct Hc as [Hf | (d & Hfrom & Hd)]; [by left |].
    right. exists d. split; [exact Hfrom | lia]. }
  congruence.
Qed.

Lemma verify_jwt_rejection_is_final_witness :
  verify_jwt sample_decode (lit "secret") utc (lit "tok-u2") 2100000000000000
  = None.
Proof.
  apply (verify_jwt_rejection_is_final sample_decode (lit "secret") utc
           (lit "tok-u2") 2000000000000001 2100000000000000
           sample_payload_u2).
  - lia.
  - vm_compute. reflexivity.
  - vm_compute. reflexivity.
  - vm_compute. reflexivity.
Defined.

(** X19. An expiry that cannot be turned into a [datetime] rejects the
    token, however far in the future it points: a decoded payload whose
    "exp" is a non-empty string, or a non-zero integer whose local time lies
    outside the years 1 to 9999, makes [verify_jwt] return nothing. *)
Theorem verify_jwt_rejects_unusable_exp
    (jwt_decode : str → str → list str → datetime → decode_result)
    (SECRET_KEY : str) (utcoffset : Z → Z)
    (token : str) (utcnow : datetime) (payload : dict) :
  jwt_decode token SECRET_KEY [lit "HS256"] utcnow = Decoded payload →
  (∃ v, payload !! lit "exp" = Some (PStr v) ∧ v ≠ [])
  ∨ (∃ e, payload !! lit "exp" = Some (PInt e) ∧ e ≠ 0
          ∧ (e + utcoffset e < datetime_min_s
             ∨ datetime_max_s < e + utcoffset e)) →
  verify_jwt jwt_decode SECRET_KEY utcoffset token utcnow = None.
Proof.
  intros Hd Hexp.
  destruct (verify_jwt jwt_decode SECRET_KEY utcoffset token utcnow)
    as [p |] eqn:Hv; [| reflexivity]. exfalso.
  apply verify_jwt_cases in Hv as [Hd' Hc].
  assert (p = payload) as -> by congruence.
  unfold dict_get in Hc.
  destruct Hexp as [(v & Hv & Hne) | (e & He & Hne & Hrange)].
  - rewrite Hv in Hc. simpl in Hc.
    destruct Hc as [Hf | (d & Hfrom & _)]; [| discriminate].
    apply negb_false_iff, bool_decide_eq_true in Hf. contradiction.
  - rewrite He in Hc. simpl in Hc.
    destruct Hc as [Hf | (d & Hfrom & _)].
    + apply negb_false_iff, Z.eqb_eq in Hf. contradiction.
    + destruct (Z.leb_spec datetime_min_s (e + utcoffset e)),
        (Z.leb_spec (e + utcoffset e) datetime_max_s);
        simpl in Hfrom; try discriminate. lia.
Qed.

Lemma verify_jwt_rejects_unusable_exp_witness :
  verify_jwt
    (λ _ _ _ _, Decoded {[ lit "exp" := PInt 253402300800 ]})
    (lit "secret") utc (lit "tok") 1700000000000000
  = None.
Proof.
  apply (verify_jwt_rejects_unusable_exp
           (λ _ _ _ _, Decoded {[ lit "exp" := PInt 253402300800 ]})
           (lit "secret") utc (lit "tok") 1700000000000000
           {[ lit "exp" := PInt 253402300800 ]}).
  - reflexivity.
  - right. exists 253402300800. split; [vm_compute; reflexivity |].
    split; [lia |]. right. vm_compute. reflexivity.
Defined.

(** X20. The expiry is compared in local time against the UTC clock: on a
    server whose zone is [o] seconds from UTC, a decoded token with a
    non-zero integer "exp" of [e] seconds (local time within the range of
    [datetime]) is returned exactly as long as the UTC clock has not passed
    [e + o] seconds; the instant [e + o] itself still passes. *)
Theorem verify_jwt_compares_local_time
    (jwt_decode : str → str → list str → datetime → decode_result)
    (SECRET_KEY : str) (utcoffset : Z → Z) (o : Z)
    (token : str) (utcnow : datetime) (payload : dict) (e : Z) :
  (∀ z, utcoffset z = o) →
  jwt_decode token SECRET_KEY [lit "HS256"] utcnow = Decoded payload →
  payload !! lit "exp" = Some (PInt e) →
  e ≠ 0 →
  datetime_min_s ≤ e + o ≤ datetime_max_s →
  verify_jwt jwt_decode SECRET_KEY utcoffset token utcnow = Some payload
  ↔ utcnow ≤ (e + o) * 1000000.
Proof.
  intros Ho Hd He Hne [Hmin Hmax].
  rewrite verify_jwt_cases. unfold dict_get. rewrite He. simpl. rewrite Ho.
  destruct (Z.leb_spec datetime_min_s (e + o)); [| lia].
  destruct (Z.leb_spec (e + o) datetime_max_s); [| lia]. simpl.
  split.
  - intros [_ [Hf | (d & [= <-] & Hle)]]; [| exact Hle].
    apply negb_false_iff, Z.eqb_eq in Hf. contradiction.
  - intros Hle. split; [exact Hd |]. right. eauto.
Qed.

Lemma verify_jwt_compares_local_time_witness :
  verify_jwt sample_decode (lit "secret") (λ _, -18000) (lit "tok-u2")
    1999990000000000
  = Some sample_payload_u2
  ↔ 1999990000000000 ≤ (2000000000 + -18000) * 1000000.
Proof.
  apply (verify_jwt_compares_local_time sample_decode (lit "secret")
           (λ _, -18000) (-18000) (lit "tok-u2") 1999990000000000
           sample_payload_u2 2000000000).
  - reflexivity.
  - vm_compute. reflexivity.
  - vm_compute. reflexivity.
  - lia.
  - unfold datetime_min_s, datetime_max_s. lia.
Defined.

(** ** CORS origins *)

Lemma split_on_from_no_sep (sep : N) (cur s piece : str) :
  sep ∉ cur → piece ∈ split_on_from sep cur s → sep ∉ piece.
Proof.
  revert cur. induction s as [| c s IH]; intros cur Hcur; simpl.
  - intros ->%list_elem_of_singleton. by rewrite elem_of_reverse.
  - destruct (N.eqb_spec c sep) as [-> | Hc].
    + intros [-> | Hin]%elem_of_cons; [by rewrite elem_of_reverse |].
      apply (IH []); [apply not_elem_of_nil | exact Hin].
    + apply IH. intros [-> | H]%elem_of_cons; [done | by apply Hcur].
Qed.

(** X21. Every origin the CORS configuration ends up with is non-empty,
    carries no whitespace at either end and contains no comma, whatever the
    value of [CORS_ORIGINS] (set or not, empty, with stray commas or
    blanks). *)
Theorem cors_origins_are_clean (CORS_ORIGINS : option str) :
  Forall (λ origin, origin ≠ [] ∧ trimmed origin ∧ comma ∉ origin)
    (cors_origins CORS_ORIGINS).
Proof.
  apply Forall_forall. intros origin Hin. unfold cors_origins in Hin.
  apply list_elem_of_fmap in Hin as (piece & -> & Hin).
  apply list_elem_of_filter in Hin as [Ht Hin]. split; [| split].
  - simpl in Ht. apply negb_true_iff, bool_decide_eq_false in Ht. exact Ht.
  - apply strip_trimmed.
  - intros Hc%strip_elem. revert Hc. unfold split_on in Hin.
    eapply split_on_from_no_sep; [apply not_elem_of_nil | exact Hin].
Qed.

(** ** The guard on a route *)

(** C2, as amended. For each of the six operations, when the identity the
    middleware took from the token differs from the [user_id] of the path,
    the route fails before any store access: the session is returned
    untouched, no row read or written. With a body that passes its schema
    (always so for the four operations without a body) the failure is 403
    Forbidden; a body that fails its schema is refused with 422 before the
    guard is reached. In neither case is it 404. *)
Theorem forbidden_before_store_access
    (jwt_decode : str → str → list str → datetime → decode_result)
    (SECRET_KEY : str) (utcoffset : Z → Z)
    (op : operation) (request request' : Request) (utcnow : datetime)
    (s : Session) :
  verify_jwt_middleware jwt_decode SECRET_KEY utcoffset request utcnow
    = Return request' →
  state_user_id request' ≠ PStr (path_user_id op) →
  ∃ e,
    route jwt_decode SECRET_KEY utcoffset op request utcnow s = (Raise e, s)
    ∧ (valid_body op = true →
       ∃ detail, e = HTTPException HTTP_403_FORBIDDEN detail)
    ∧ (valid_body op = false → e = RequestValidationError)
    ∧ (∀ detail, e ≠ HTTPException HTTP_404_NOT_FOUND detail).
Proof.
  intros Hmw Hne.
  destruct (handler_forbidden op request' s Hne) as [detail Hh].
  unfold route. rewrite Hmw.
  destruct (valid_body op).
  - exists (HTTPException HTTP_403_FORBIDDEN detail).
    split; [exact Hh |]. split; [eauto |]. split; [discriminate |].
    intros d. discriminate.
  - exists RequestValidationError. split; [reflexivity |].
    split; [discriminate |]. split; [reflexivity |]. intros d. discriminate.
Qed.

Lemma forbidden_before_store_access_witness :
  ∃ e,
    route sample_decode (lit "secret") utc (GetTask (lit "u2") 5)
      request_bearer_u1 0 sample_session = (Raise e, sample_session)
    ∧ (valid_body (GetTask (lit "u2") 5) = true →
       ∃ detail, e = HTTPException HTTP_403_FORBIDDEN detail)
    ∧ (valid_body (GetTask (lit "u2") 5) = false → e = RequestValidationError)
    ∧ (∀ detail, e ≠ HTTPException HTTP_404_NOT_FOUND detail).
Proof.
  apply (forbidden_before_store_access sample_decode (lit "secret") utc
           (GetTask (lit "u2") 5) request_bearer_u1
           (mkRequest (Some (lit "Bearer tok-u1")) (PStr (lit "u1"))
              (PStr (lit "u1@example.org")))).
  - vm_compute. reflexivity.
  - vm_compute. discriminate.
Defined.

(** C2, as stated, fails: a create on the path of "u2", sent with the token
    of "u1" and an empty title, is refused with 422, not with 403. *)
Lemma invalid_body_is_refused_before_the_guard :
  let op := CreateTask (lit "u2") (TaskCreate.mk [] None) 50 51 in
  verify_jwt_middleware sample_decode (lit "secret") utc request_bearer_u1
    sample_instant
  = Return (mkRequest (Some (lit "Bearer tok-u1")) (PStr (lit "u1"))
              (PStr (lit "u1@example.org")))
  ∧ PStr (lit "u1") ≠ PStr (path_user_id op)
  ∧ route sample_decode (lit "secret") utc op request_bearer_u1
      sample_instant sample_session
    = (Raise RequestValidationError, sample_session)
  ∧ ¬ ∃ detail s',
        route sample_decode (lit "secret") utc op request_bearer_u1
          sample_instant sample_session
        = (Raise (HTTPException HTTP_403_FORBIDDEN detail), s').
Proof.
  split; [vm_compute; reflexivity |].
  split; [vm_compute; discriminate |].
  split; [vm_compute; reflexivity |].
  intros (detail & s' & H). vm_compute in H. discriminate.
Qed.

(** ** Trimming on update *)

Lemma lstrip_cut (s : str) :
  ∃ ws, s = ws ++ lstrip s ∧ forallb isspace ws = true.
Proof.
  induction s as [| a s (ws & IH & Hws)]; [by exists [] |]. simpl.
  destruct (isspace a) eqn:Ha.
  - exists (a :: ws). simpl. rewrite Ha, Hws. split; [by rewrite <- IH | done].
  - by exists [].
Qed.

Lemma rstrip_cut (s : str) :
  ∃ ws, s = rstrip s ++ ws ∧ forallb isspace ws = true.
Proof.
  unfold rstrip. destruct (lstrip_cut (reverse s)) as (ws & Hs & Hws).
  exists (reverse ws). split.
  - rewrite <- reverse_app, <- Hs. by rewrite reverse_involutive.
  - apply forallb_forall. intros c Hc. rewrite <- list_elem_of_In in Hc.
    rewrite elem_of_reverse in Hc. rewrite forallb_forall in Hws.
    apply Hws. by rewrite <- list_elem_of_In.
Qed.

(** What [strip] returns is the string itself without a run of whitespace
    at its start and one at its end. *)
Lemma strip_cut (s : str) :
  ∃ ws1 ws2,
    s = ws1 ++ strip s ++ ws2
    ∧ forallb isspace ws1 = true ∧ forallb isspace ws2 = true.
Proof.
  destruct (lstrip_cut s) as (ws1 & H1 & Hws1).
  destruct (rstrip_cut (lstrip s)) as (ws2 & H2 & Hws2).
  exists ws1, ws2. unfold strip. by rewrite <- H2, <- H1.
Qed.

(** C8. For a task the caller owns, [update_task] writes back the same row
    with: for a supplied title, the supplied text without the whitespace at
    its start and at its end (what is stored neither begins nor ends with
    whitespace, and the supplied text is the stored one between two runs of
    whitespace); the stored title kept when none is supplied; the
    description likewise; [updated_at] set to the clock reading of the call,
    whatever was supplied; and id, owner, completed and [created_at] as
    they were. No other row changes. *)
Theorem update_task_changes_only_supplied_fields
    (user_id : str) (task_id : Z) (task_data : TaskUpdate.t)
    (request : Request) (utcnow : datetime) (s : Session) (x : Task.t) :
  state_user_id request = PStr user_id →
  db s !! task_id = Some x →
  Task.user_id x = user_id →
  ∃ x',
    update_task user_id task_id task_data request utcnow s
    = (Return (mkApiResponse true
         (Some (DataTask (TaskResponse.of_task task_id x'))) None),
       mkSession (<[task_id := x']> (db s))
         (log s ++ [Get task_id; Flush task_id; Refresh task_id]))
    ∧ match TaskUpdate.title task_data with
      | Some v =>
          trimmed (Task.title x')
          ∧ ∃ ws1 ws2,
              v = ws1 ++ Task.title x' ++ ws2
              ∧ forallb isspace ws1 = true ∧ forallb isspace ws2 = true
      | None => Task.title x' = Task.title x
      end
    ∧ match TaskUpdate.description task_data with
      | Some v =>
          ∃ d, Task.description x' = Some d
               ∧ trimmed d
               ∧ ∃ ws1 ws2,
                   v = ws1 ++ d ++ ws2
                   ∧ forallb isspace ws1 = true ∧ forallb isspace ws2 = true
      | None => Task.description x' = Task.description x
      end
    ∧ Task.updated_at x' = utcnow
    ∧ Task.id x' = Some task_id
    ∧ Task.user_id x' = Task.user_id x
    ∧ Task.completed x' = Task.completed x
    ∧ Task.created_at x' = Task.created_at x.
Proof.
  intros Hid Hx Hown. eexists.
  split; [by apply update_task_run |]. simpl.
  split; [| split; [| by repeat split]].
  - destruct (TaskUpdate.title task_data) as [v |]; simpl; [| reflexivity].
    split; [apply strip_trimmed | apply strip_cut].
  - destruct (TaskUpdate.description task_data) as [v |]; simpl;
      [| reflexivity].
    exists (strip v). split; [reflexivity |].
    split; [apply strip_trimmed | apply strip_cut].
Qed.

Lemma update_task_changes_only_supplied_fields_witness :
  (∃ x',
     update_task (lit "u1") 2 (TaskUpdate.mk (Some (lit "  Call mum ")) None)
       request_u1 70 sample_session
     = (Return (mkApiResponse true
          (Some (DataTask (TaskResponse.of_task 2 x'))) None),
        mkSession (<[2 := x']> sample_db) [Get 2; Flush 2; Refresh 2])
     ∧ (trimmed (Task.title x')
        ∧ ∃ ws1 ws2,
            lit "  Call mum " = ws1 ++ Task.title x' ++ ws2
            ∧ forallb isspace ws1 = true ∧ forallb isspace ws2 = true)
     ∧ Task.description x' = Some (lit "soon")
     ∧ Task.updated_at x' = 70
     ∧ Task.id x' = Some 2
     ∧ Task.user_id x' = lit "u1"
     ∧ Task.completed x' = true
     ∧ Task.created_at x' = 30)
  ∧ (update_task (lit "u1") 2 (TaskUpdate.mk (Some (lit "  Call mum ")) None)
       request_u1 70 sample_session).1
    = Return (mkApiResponse true
        (Some (DataTask (TaskResponse.mk 2 (lit "u1") (lit "Call mum")
                           (Some (lit "soon")) true 30 70))) None).
Proof.
  split; [| vm_compute; reflexivity].
  apply (update_task_changes_only_supplied_fields (lit "u1") 2
           (TaskUpdate.mk (Some (lit "  Call mum ")) None) request_u1 70
           sample_session sample_task_b).
  - reflexivity.
  - vm_compute. reflexivity.
  - reflexivity.
Defined.

(** ** The verifier over the library *)

Lemma validate_exp_Decoded
    (int_of_str : str → option Z) (payload p : dict) (utcnow : datetime) :
  validate_exp int_of_str payload utcnow = Decoded p → p = payload.
Proof.
  unfold validate_exp. intros H.
  repeat case_match; by simplify_eq.
Qed.

(** The library returns a payload exactly when the token carries it under
    a good signature, its "exp" passes and so do the other claims. *)
Lemma pyjwt_decode_Decoded
    (jws_load : str → str → list str → option dict)
    (int_of_str : str → option Z) (other_claims_ok : dict → datetime → bool)
    (token key : str) (algorithms : list str) (utcnow : datetime)
    (payload : dict) :
  pyjwt_decode jws_load int_of_str other_claims_ok token key algorithms utcnow
  = Decoded payload
  ↔ jws_load token key algorithms = Some payload
    ∧ validate_exp int_of_str payload utcnow = Decoded payload
    ∧ other_claims_ok payload utcnow = true.
Proof.
  unfold pyjwt_decode.
  destruct (jws_load token key algorithms) as [p |];
    [| split; [discriminate | intros [? _]; discriminate]].
  destruct (validate_exp int_of_str p utcnow) as [p' | |] eqn:Hv.
  - apply validate_exp_Decoded in Hv as Hp. subst p'.
    destruct (other_claims_ok p utcnow) eqn:Ho.
    + split; [intros [= <-]; done | intros ([= <-] & _); done].
    + split; [discriminate | intros ([= <-] & _ & ?); congruence].
  - split; [discriminate | intros ([= <-] & ? & _); congruence].
  - split; [discriminate | intros ([= <-] & ? & _); congruence].
Qed.

(** C4, as amended. The verifier returns nothing but the claims the token
    carries. It fails whenever the signature does not verify or the
    structure is malformed, and whenever the claimed expiry is at or before
    the verification instant. It returns the claims when signature and
    structure are good, the library's checks of the other claims pass, and
    either the token claims no expiry at all, or the claimed expiry is
    strictly after the verification instant, on a server whose local zone
    is not behind UTC and for an expiry [datetime] can hold. *)
Theorem verify_jwt_accepts_and_rejects
    (jws_load : str → str → list str → option dict)
    (int_of_str : str → option Z) (other_claims_ok : dict → datetime → bool)
    (SECRET_KEY : str) (utcoffset : Z → Z)
    (token : str) (utcnow : datetime) :
  let loaded := jws_load token SECRET_KEY [lit "HS256"] in
  let verified :=
    verify_jwt (pyjwt_decode jws_load int_of_str other_claims_ok) SECRET_KEY
      utcoffset token utcnow in
  (∀ payload, verified = Some payload → loaded = Some payload)
  ∧ (loaded = None → verified = None)
  ∧ (∀ payload e,
       loaded = Some payload → payload !! lit "exp" = Some (PInt e) →
       e * 1000000 ≤ utcnow →
       verified = None)
  ∧ (∀ payload,
       loaded = Some payload → other_claims_ok payload utcnow = true →
       payload !! lit "exp" = None →
       verified = Some payload)
  ∧ (∀ payload e,
       loaded = Some payload → other_claims_ok payload utcnow = true →
       payload !! lit "exp" = Some (PInt e) →
       utcnow < e * 1000000 →
       0 ≤ utcoffset e →
       datetime_min_s ≤ e + utcoffset e ≤ datetime_max_s →
       verified = Some payload).
Proof.
  intros loaded verified.
  assert (Hsound : ∀ payload, verified = Some payload →
            loaded = Some payload
            ∧ validate_exp int_of_str payload utcnow = Decoded payload).
  { intros payload Hv. apply verify_jwt_cases in Hv as [Hd _].
    apply pyjwt_decode_Decoded in Hd as (Hl & He & _). by split. }
  split; [intros payload Hv; by apply Hsound |].
  split.
  { intros Hl. destruct verified as [p |] eqn:Hv; [| reflexivity].
    destruct (Hsound p eq_refl) as [Hp _]. congruence. }
  split.
  { intros payload e Hl Hexp Hle.
    destruct verified as [p |] eqn:Hv; [| reflexivity]. exfalso.
    destruct (Hsound p eq_refl) as [Hp He].
    assert (p = payload) as -> by congruence.
    unfold validate_exp in He. rewrite Hexp in He.
    destruct (Z.leb_spec (e * 1000000) utcnow); [discriminate | lia]. }
  split.
  { intros payload Hl Hok Hexp. apply verify_jwt_cases. split.
    - apply pyjwt_decode_Decoded. split; [exact Hl |]. split; [| exact Hok].
      unfold validate_exp. by rewrite Hexp.
    - left. unfold dict_get. by rewrite Hexp. }
  intros payload e Hl Hok Hexp Hlt Hoff [Hmin Hmax].
  apply verify_jwt_cases. split.
  - apply pyjwt_decode_Decoded. split; [exact Hl |]. split; [| exact Hok].
    unfold validate_exp. rewrite Hexp.
    destruct (Z.leb_spec (e * 1000000) utcnow); [lia | reflexivity].
  - right. exists ((e + utcoffset e) * 1000000).
    unfold dict_get. rewrite Hexp. simpl.
    destruct (Z.leb_spec datetime_min_s (e + utcoffset e)); [| lia].
    destruct (Z.leb_spec (e + utcoffset e) datetime_max_s); [| lia].
    simpl. split; [reflexivity | lia].
Qed.

Lemma verify_jwt_accepts_and_rejects_witness :
  verify_jwt sample_pyjwt_decode (lit "secret") utc (lit "tok-u2")
    sample_instant
  = Some sample_payload_u2.
Proof.
  apply (verify_jwt_accepts_and_rejects sample_jws_load (λ _, None)
           (λ _ _, true) (lit "secret") utc (lit "tok-u2") sample_instant)
    with (e := 2000000000).
  - vm_compute. reflexivity.
  - reflexivity.
  - vm_compute. reflexivity.
  - unfold sample_instant. lia.
  - unfold utc. lia.
  - unfold utc, datetime_min_s, datetime_max_s. lia.
Defined.

(** C4, as stated, fails: the token "tok-u1", well-formed and signed with
    the key, is returned with its claims although its payload claims no
    expiry at all, let alone one strictly after the instant. *)
Lemma verify_jwt_accepts_token_without_expiry :
  sample_jws_load (lit "tok-u1") (lit "secret") [lit "HS256"]
  = Some sample_payload_u1
  ∧ verify_jwt sample_pyjwt_decode (lit "secret") utc (lit "tok-u1")
      sample_instant
    = Some sample_payload_u1
  ∧ ¬ expiry_strictly_after sample_payload_u1 sample_instant.
Proof.
  split; [vm_compute; reflexivity |].
  split; [vm_compute; reflexivity |].
  intros (e & He & _). vm_compute in He. discriminate.
Qed.

(** C10, as amended. A token whose signature verifies under the key and
    whose payload has no "exp" entry is returned with its payload at every
    instant at which the library's checks of the other claims pass: it is
    never treated as expired. A payload whose "exp" is 0 is not returned at
    any instant from 1970 on: the library refuses it as expired. *)
Theorem verify_jwt_without_exp_never_expires
    (jws_load : str → str → list str → option dict)
    (int_of_str : str → option Z) (other_claims_ok : dict → datetime → bool)
    (SECRET_KEY : str) (utcoffset : Z → Z)
    (token : str) (payload : dict) :
  jws_load token SECRET_KEY [lit "HS256"] = Some payload →
  let verified utcnow :=
    verify_jwt (pyjwt_decode jws_load int_of_str other_claims_ok) SECRET_KEY
      utcoffset token utcnow in
  (payload !! lit "exp" = None →
   ∀ utcnow, other_claims_ok payload utcnow = true →
             verified utcnow = Some payload)
  ∧ (payload !! lit "exp" = Some (PInt 0) →
     ∀ utcnow, 0 ≤ utcnow → verified utcnow = None).
Proof.
  intros Hl verified. split.
  - intros Hexp utcnow Hok. apply verify_jwt_cases. split.
    + apply pyjwt_decode_Decoded. split; [exact Hl |]. split; [| exact Hok].
      unfold validate_exp. by rewrite Hexp.
    + left. unfold dict_get. by rewrite Hexp.
  - intros Hexp utcnow Hnow.
    destruct (verified utcnow) as [p |] eqn:Hv; [| reflexivity]. exfalso.
    apply verify_jwt_cases in Hv as [Hd _].
    apply pyjwt_decode_Decoded in Hd as (Hl' & He & _).
    assert (p = payload) as -> by congruence.
    unfold validate_exp in He. rewrite Hexp in He.
    destruct (Z.leb_spec (0 * 1000000) utcnow); [discriminate | lia].
Qed.

Lemma verify_jwt_without_exp_never_expires_witness :
  verify_jwt sample_pyjwt_decode (lit "secret") utc (lit "tok-u1")
    sample_instant
  = Some sample_payload_u1
  ∧ verify_jwt sample_pyjwt_decode (lit "secret") utc (lit "tok-zero")
      sample_instant
    = None.
Proof.
  split.
  - apply (verify_jwt_without_exp_never_expires sample_jws_load (λ _, None)
             (λ _ _, true) (lit "secret") utc (lit "tok-u1")
             sample_payload_u1).
    + vm_compute. reflexivity.
    + vm_compute. reflexivity.
    + reflexivity.
  - apply (verify_jwt_without_exp_never_expires sample_jws_load (λ _, None)
             (λ _ _, true) (lit "secret") utc (lit "tok-zero")
             sample_payload_zero).
    + vm_compute. reflexivity.
    + vm_compute. reflexivity.
    + unfold sample_instant. lia.
Defined.

(** C10, as stated, fails: the token "tok-zero" is well-formed and signed
    with the key and its "exp" is 0, yet at an instant of 2023 the verifier
    returns nothing for it. *)
Lemma verify_jwt_rejects_zero_exp :
  sample_jws_load (lit "tok-zero") (lit "secret") [lit "HS256"]
  = Some sample_payload_zero
  ∧ sample_payload_zero !! lit "exp" = Some (PInt 0)
  ∧ verify_jwt sample_pyjwt_decode (lit "secret") utc (lit "tok-zero")
      sample_instant
    = None.
Proof. repeat split; vm_compute; reflexivity. Qed.
